(** * dataiku_gitops_action.py: bundle reconciliation and staged promotion

    A shallow embedding of [dataiku_gitops_action.py].  The script talks to
    three kinds of things that live outside the Python process: the DSS
    nodes (through [dataikuapi]), the git checkout (through
    [subprocess.run(['git', ...])]) and the test script (through
    [subprocess.run(['python', ...])]).  They are gathered in one
    interface, [Backend]; the functions of the script are written once,
    over any backend, in a state-and-exception monad that threads the
    outside world, the log of calls made and the lines printed. *)

From Stdlib Require Import ZArith Ascii String List.
From stdpp Require Import base option list strings gmap.
Import ListNotations.

Local Open Scope string_scope.
Local Open Scope list_scope.

(** ** Python values and strings *)

(** The result of [os.getenv(name)]: [None] when the variable is unset. *)
Abbreviation pyval := (option string).

(** [str(v)] as an f-string renders it. *)
Definition pystr (v : pyval) : string :=
  match v with
  | Some s => s
  | None => "None"
  end.

(** Truth value of a [str]-or-[None] value: [None] and [''] are falsy. *)
Definition truthy (v : pyval) : bool :=
  match v with
  | None => false
  | Some "" => false
  | Some _ => true
  end.

Definition nl : string := String (ascii_of_nat 10) "".

(** ASCII part of [str.lower]. *)
Definition lower_ascii (c : ascii) : ascii :=
  let n := nat_of_ascii c in
  if (65 <=? n)%nat && (n <=? 90)%nat then ascii_of_nat (n + 32) else c.

Fixpoint lower (s : string) : string :=
  match s with
  | EmptyString => EmptyString
  | String c r => String (lower_ascii c) (lower r)
  end.

(** ASCII white space, as [str.strip] sees it. *)
Definition is_space (c : ascii) : bool :=
  let n := nat_of_ascii c in
  ((9 <=? n)%nat && (n <=? 13)%nat) || ((28 <=? n)%nat && (n <=? 32)%nat).

Fixpoint lstrip (s : string) : string :=
  match s with
  | EmptyString => EmptyString
  | String c r => if is_space c then lstrip r else s
  end.

Fixpoint rstrip (s : string) : string :=
  match s with
  | EmptyString => EmptyString
  | String c r =>
      match rstrip r with
      | EmptyString => if is_space c then EmptyString else String c EmptyString
      | r' => String c r'
      end
  end.

Definition strip (s : string) : string := rstrip (lstrip s).

(** [sub in s] on strings. *)
Definition contains (sub s : string) : bool :=
  match index 0 sub s with
  | Some _ => true
  | None => false
  end.

(** ** Exceptions

    Only subclasses of [Exception] are modelled: the script never raises
    [SystemExit] (it has no [sys] to call) and [KeyboardInterrupt] is not
    part of a run.  On them a bare [except:] and [except Exception] agree. *)
Record exn := Exn { exn_class : string; exn_msg : string }.

(** [str(e)] *)
Definition str (e : exn) : string := exn_msg e.

Definition AttributeError (attr : string) : exn :=
  Exn "AttributeError" ("'NoneType' object has no attribute '" +:+ attr +:+ "'").

Definition NameError (name : string) : exn :=
  Exn "NameError" ("name '" +:+ name +:+ "' is not defined").

Inductive res (A : Type) : Type :=
| Ok (a : A)
| Raise (e : exn).
Arguments Ok {A} a.
Arguments Raise {A} e.

(** ** What the script sees of the outside *)

(** [dataikuapi.DSSClient(url, token, no_check_certificate=True,
    client_certificate=CLIENT_CERTIFICATE)] *)
Record DSSClient := {
  host : string;
  api_key : string;
  no_check_certificate : bool;
  client_certificate : pyval
}.

(** An item of [deployer_project.list_bundles()]; the script reads its
    ['bundleId'] only. *)
Record BundleDesc := { bundleId : string }.

(** The object [subprocess.run] returns. *)
Record CompletedProcess := {
  returncode : Z;
  proc_stdout : string;
  proc_stderr : string
}.

(** Terminal result of an activation, as the interface describes it; the
    script does not look at the value [wait_for_result] returns. *)
Inductive ActivationResult :=
| ActSuccess
| ActFailure (detail : string).

(** The settings object of a deployment: the handle it belongs to and the
    raw dictionary [get_raw()] hands out (by reference). *)
Record Settings (D : Type) := {
  settings_of : D;
  get_raw : gmap string string
}.
Arguments settings_of {D} s.
Arguments get_raw {D} s.

Record Backend := {
  X : Type;
  Deployer : Type;
  DeployerProject : Type;
  Project : Type;
  Deployment : Type;
  Future : Type;
  (* subprocess.run(['git', 'rev-parse', '--short', 'HEAD'], check=True).stdout *)
  git_rev_parse : X -> res string;
  (* subprocess.run(['python', script_path], env=env, ...), with the three
     variables the script adds to the environment *)
  run_python : string -> pyval -> pyval -> pyval -> X -> res CompletedProcess * X;
  get_projectdeployer : DSSClient -> X -> res Deployer * X;
  deployer_get_project : Deployer -> pyval -> X -> res DeployerProject * X;
  list_bundles : DeployerProject -> X -> res (list BundleDesc) * X;
  client_get_project : DSSClient -> pyval -> X -> res Project * X;
  export_bundle : Project -> string -> X -> res unit * X;
  publish_bundle : Project -> string -> X -> res unit * X;
  get_deployment : Deployer -> string -> X -> res Deployment * X;
  get_settings : Deployment -> X -> res (Settings Deployment) * X;
  save : Settings Deployment -> X -> res unit * X;
  create_deployment :
    Deployer -> string -> pyval -> string -> string -> X -> res Deployment * X;
  start_update : Deployment -> X -> res Future * X;
  wait_for_result : Future -> X -> res ActivationResult * X
}.

(** ** The log of calls *)

Inductive call :=
| GetProjectDeployer (c : DSSClient)
| DeployerGetProject (project_key : pyval)
| ListBundles
| GetProject (c : DSSClient) (project_key : pyval)
| ExportBundle (bundle_id : string)
| PublishBundle (bundle_id : string)
| GetDeployment (deployment_id : string)
| GetSettings
| Save (bundle_id : option string)
| CreateDeployment (deployment_id : string) (project_key : pyval)
    (infra_id : string) (bundle_id : string)
| StartUpdate
| WaitForResult.

(** An entry of the log: [deploy(infra_id)] was entered, [run_tests]
    returned [passed] for the instance at [instance_url], or a method of
    [dataikuapi] was called and raised [raised] (nothing when [None]).
    The script keeps no such log; it is how the statements below tell
    which calls a run made. *)
Inductive event :=
| Deploy (infra_id : string)
| RunTests (instance_url : pyval) (passed : bool)
| Remote (c : call) (raised : option exn).

(** ** Configuration (module level, lines 11-27) *)

Record Config := {
  DATAIKU_API_TOKEN_DEV : pyval;
  DATAIKU_API_TOKEN_STAGING : pyval;
  DATAIKU_API_TOKEN_PROD : pyval;
  DATAIKU_INSTANCE_DEV_URL : pyval;
  DATAIKU_INSTANCE_STAGING_URL : pyval;
  DATAIKU_INSTANCE_PROD_URL : pyval;
  DATAIKU_PROJECT_KEY : pyval;
  RUN_TESTS_ONLY : bool;
  PYTHON_SCRIPT : string;
  CLIENT_CERTIFICATE : pyval
}.

Definition DATAIKU_INFRA_ID_STAGING : string := "staging".
Definition DATAIKU_INFRA_ID_PROD : string := "prod".

(** [os.getenv(name, default)] *)
Definition getenv_default (environ : gmap string string) (name default : string)
  : string :=
  match environ !! name with
  | Some v => v
  | None => default
  end.

Definition load_config (environ : gmap string string) : Config :=
  {| DATAIKU_API_TOKEN_DEV := environ !! "DATAIKU_API_TOKEN_DEV";
     DATAIKU_API_TOKEN_STAGING := environ !! "DATAIKU_API_TOKEN_STAGING";
     DATAIKU_API_TOKEN_PROD := environ !! "DATAIKU_API_TOKEN_PROD";
     DATAIKU_INSTANCE_DEV_URL := environ !! "DATAIKU_INSTANCE_DEV_URL";
     DATAIKU_INSTANCE_STAGING_URL := environ !! "DATAIKU_INSTANCE_STAGING_URL";
     DATAIKU_INSTANCE_PROD_URL := environ !! "DATAIKU_INSTANCE_PROD_URL";
     DATAIKU_PROJECT_KEY := environ !! "DATAIKU_PROJECT_KEY";
     RUN_TESTS_ONLY :=
       String.eqb (lower (getenv_default environ "RUN_TESTS_ONLY" "false")) "true";
     PYTHON_SCRIPT := getenv_default environ "PYTHON_SCRIPT" "tests.py";
     CLIENT_CERTIFICATE := environ !! "CLIENT_CERTIFICATE" |}.

(** [get_client(url, token)] *)
Definition get_client (cert : pyval) (url token : pyval) : option DSSClient :=
  if negb (truthy url) || negb (truthy token) then None
  else Some {| host := pystr url; api_key := pystr token;
               no_check_certificate := true; client_certificate := cert |}.

Definition client_dev (cfg : Config) : option DSSClient :=
  get_client (CLIENT_CERTIFICATE cfg)
    (DATAIKU_INSTANCE_DEV_URL cfg) (DATAIKU_API_TOKEN_DEV cfg).

(** [generate_bundle_id(commit_id)] *)
Definition generate_bundle_id (commit_id : string) : string :=
  "bundle_" +:+ commit_id.

(** ** The monad of the script

    A computation reads and changes the state of a run and either returns
    a value or raises. *)

Record St (B : Backend) := {
  ext : X B;               (* the world outside the process *)
  trace : list event;      (* calls made so far, oldest first *)
  stdout : list string     (* lines printed so far, oldest first *)
}.
Arguments ext {B} s.
Arguments trace {B} s.
Arguments stdout {B} s.

Definition M (B : Backend) (A : Type) : Type := St B -> res A * St B.

(** The state in which the interpreter starts the script. *)
Definition start {B} (x : X B) : St B :=
  {| ext := x; trace := []; stdout := [] |}.

Definition ret {B A} (a : A) : M B A := fun st => (Ok a, st).

Definition bind {B A C} (m : M B A) (k : A -> M B C) : M B C :=
  fun st =>
    match m st with
    | (Ok a, st') => k a st'
    | (Raise e, st') => (Raise e, st')
    end.

Definition raise {B A} (e : exn) : M B A := fun st => (Raise e, st).

(** [try: m  except Exception as e: h e] *)
Definition try_except {B A} (m : M B A) (h : exn -> M B A) : M B A :=
  fun st =>
    match m st with
    | (Ok a, st') => (Ok a, st')
    | (Raise e, st') => h e st'
    end.

Definition print {B} (line : string) : M B unit :=
  fun st =>
    (Ok tt, {| ext := ext st; trace := trace st; stdout := stdout st ++ [line] |}).

(** Entering [ev] in the log. *)
Definition mark {B} (ev : event) : M B unit :=
  fun st =>
    (Ok tt, {| ext := ext st; trace := trace st ++ [ev]; stdout := stdout st |}).

Definition raised {A} (r : res A) : option exn :=
  match r with
  | Ok _ => None
  | Raise e => Some e
  end.

(** A method call on a [dataikuapi] object: it acts on the outside world
    and is entered in the log together with the exception it raised, if
    any. *)
Definition invoke {B A} (c : call) (op : X B -> res A * X B) : M B A :=
  fun st =>
    let (r, x') := op (ext st) in
    (r, {| ext := x'; trace := trace st ++ [Remote c (raised r)];
           stdout := stdout st |}).

(** A child process: it acts on the outside world; the log of [dataikuapi]
    calls does not see it. *)
Definition subprocess {B A} (op : X B -> res A * X B) : M B A :=
  fun st =>
    let (r, x') := op (ext st) in
    (r, {| ext := x'; trace := trace st; stdout := stdout st |}).

(** Reading the outside world. *)
Definition ask {B A} (f : X B -> A) : M B A := fun st => (Ok (f (ext st)), st).

(** [obj.attr] where [obj] may be [None]. *)
Definition getattr {B A} (obj : option A) (attr : string) : M B A :=
  match obj with
  | Some o => ret o
  | None => raise (AttributeError attr)
  end.

Declare Scope py_scope.
Delimit Scope py_scope with py.
Notation "x <- m ;; k" := (bind m (fun x => k))
  (at level 100, m at next level, right associativity) : py_scope.
Notation "m ;;; k" := (bind m (fun _ => k))
  (at level 100, right associativity) : py_scope.

(** [for b in bundles: if b['bundleId'] == bundle_id: bundle_exists = True; break] *)
Fixpoint scan_bundles (bundles : list BundleDesc) (bundle_id : string) : bool :=
  match bundles with
  | [] => false
  | b :: rest =>
      if String.eqb (bundleId b) bundle_id then true
      else scan_bundles rest bundle_id
  end.

Section Script.
Context (B : Backend) (cfg : Config).
Local Open Scope py_scope.

(** [get_git_sha()]: it reads the checkout and changes nothing. *)
Definition get_git_sha (x : X B) : string :=
  match git_rev_parse B x with
  | Ok out => strip out
  | Raise _ => "manual-test"
  end.

(** [run_tests(script_path, instance_url, api_key, project_key)] *)
Definition run_tests (script_path : string)
    (instance_url api_key project_key : pyval) : M B bool :=
  print ("Running tests against " +:+ pystr instance_url +:+ "...") ;;;
  passed <-
    try_except
      (result <-
         subprocess (run_python B script_path instance_url api_key project_key) ;;
       if Z.eqb (returncode result) 0
       then print "Tests Passed!" ;;; ret true
       else
         print ("Tests Failed:" +:+ nl +:+ proc_stderr result +:+ nl
                +:+ proc_stdout result) ;;;
         ret false)
      (fun e => print ("Error running tests: " +:+ str e) ;;; ret false) ;;
  mark (RunTests instance_url passed) ;;;
  ret passed.

Definition deployment_id_of (infra_id : string) : string :=
  "deploy_" +:+ pystr (DATAIKU_PROJECT_KEY cfg) +:+ "_" +:+ infra_id.

(** The body of the outer [try] of [deploy] (lines 87-156). *)
Definition deploy_body (infra_id : string) : M B unit :=
  commit_id <- ask get_git_sha ;;
  let bundle_id := generate_bundle_id commit_id in
  c <- getattr (client_dev cfg) "get_projectdeployer" ;;
  deployer <- invoke (GetProjectDeployer c) (get_projectdeployer B c) ;;
  (* 1. CHECK IF BUNDLE EXISTS *)
  bundle_exists <-
    try_except
      (deployer_project <-
         invoke (DeployerGetProject (DATAIKU_PROJECT_KEY cfg))
           (deployer_get_project B deployer (DATAIKU_PROJECT_KEY cfg)) ;;
       bundles <- invoke ListBundles (list_bundles B deployer_project) ;;
       ret (scan_bundles bundles bundle_id))
      (fun _ => ret false) ;;
  (if bundle_exists : bool then
     print ("Bundle '" +:+ bundle_id
            +:+ "' already exists in Deployer. Skipping export.")
   else
     print ("Bundle '" +:+ bundle_id
            +:+ "' not found. Exporting from Design node...") ;;;
     c' <- getattr (client_dev cfg) "get_project" ;;
     project <-
       invoke (GetProject c' (DATAIKU_PROJECT_KEY cfg))
         (client_get_project B c' (DATAIKU_PROJECT_KEY cfg)) ;;
     try_except
       (invoke (ExportBundle bundle_id) (export_bundle B project bundle_id))
       (fun e =>
          if contains "already exists" (str e)
          then print "Bundle existed in Project but not Deployer. Proceeding to publish."
          else raise e) ;;;
     invoke (PublishBundle bundle_id) (publish_bundle B project bundle_id) ;;;
     print ("Published bundle '" +:+ bundle_id +:+ "' to Deployer.")) ;;;
  (* 2. DEPLOY *)
  let deployment_id := deployment_id_of infra_id in
  print ("Preparing deployment '" +:+ deployment_id +:+ "' on infra '"
         +:+ infra_id +:+ "'...") ;;;
  deployment <-
    try_except
      (deployment <-
         invoke (GetDeployment deployment_id)
           (get_deployment B deployer deployment_id) ;;
       settings <- invoke GetSettings (get_settings B deployment) ;;
       let settings :=
         {| settings_of := settings_of settings;
            get_raw := <["bundleId" := bundle_id]> (get_raw settings) |} in
       invoke (Save (get_raw settings !! "bundleId")) (save B settings) ;;;
       print ("Updated existing deployment to use bundle " +:+ bundle_id) ;;;
       ret deployment)
      (fun _ =>
         print "Creating new deployment..." ;;;
         invoke
           (CreateDeployment deployment_id (DATAIKU_PROJECT_KEY cfg)
              infra_id bundle_id)
           (create_deployment B deployer deployment_id
              (DATAIKU_PROJECT_KEY cfg) infra_id bundle_id)) ;;
  (* 3. ACTIVATE *)
  print ("Activating deployment on " +:+ infra_id +:+ "...") ;;;
  update <- invoke StartUpdate (start_update B deployment) ;;
  invoke WaitForResult (wait_for_result B update) ;;;
  print ("SUCCESS: Deployed " +:+ bundle_id +:+ " to " +:+ infra_id).

(** [deploy(infra_id)] *)
Definition deploy (infra_id : string) : M B unit :=
  mark (Deploy infra_id) ;;;
  try_except (deploy_body infra_id)
    (fun e => print ("Failed to deploy: " +:+ str e) ;;; raise e).

(** [sys.exit(code)]: the module never imports [sys] (lines 1-5), so
    evaluating the name [sys] raises [NameError] before anything exits. *)
Definition sys_exit {A} (code : Z) : M B A := raise (NameError "sys").

(** The body of the [try] of [main] (lines 166-200). *)
Definition main_body : M B unit :=
  print "--- Starting GitOps Workflow ---" ;;;
  (* 1. Deploy to Staging *)
  print (nl +:+ "[Phase 1] Deploying to Staging ("
         +:+ DATAIKU_INFRA_ID_STAGING +:+ ")...") ;;;
  deploy DATAIKU_INFRA_ID_STAGING ;;;
  (* 2. Run Tests on Staging *)
  print (nl +:+ "[Phase 2] Running Tests on Staging...") ;;;
  tests_passed <-
    run_tests (PYTHON_SCRIPT cfg) (DATAIKU_INSTANCE_STAGING_URL cfg)
      (DATAIKU_API_TOKEN_STAGING cfg) (DATAIKU_PROJECT_KEY cfg) ;;
  (if negb tests_passed
   then print "Tests failed in staging. Aborting." ;;; sys_exit 1
   else ret tt) ;;;
  print "Tests passed in staging." ;;;
  (if RUN_TESTS_ONLY cfg
   then print "RUN_TESTS_ONLY=true. Skipping Prod deployment." ;;; sys_exit 0
   else ret tt) ;;;
  (* 3. Deploy to Production *)
  print (nl +:+ "[Phase 3] Deploying to Production ("
         +:+ DATAIKU_INFRA_ID_PROD +:+ ")...") ;;;
  deploy DATAIKU_INFRA_ID_PROD ;;;
  (* 4. Optional: Run Smoke Tests on Prod *)
  print (nl +:+ "[Phase 4] Verifying Production...") ;;;
  prod_tests_passed <-
    run_tests (PYTHON_SCRIPT cfg) (DATAIKU_INSTANCE_PROD_URL cfg)
      (DATAIKU_API_TOKEN_PROD cfg) (DATAIKU_PROJECT_KEY cfg) ;;
  if prod_tests_passed : bool
  then print "Deployment and verification successful!"
  else print "WARNING: Production tests failed after deployment." ;;; sys_exit 1.

(** [main()] *)
Definition main : M B unit :=
  try_except main_body
    (fun e =>
       print ("An error occurred: " +:+ str e) ;;;
       (* traceback.print_exc() writes to stderr *)
       sys_exit 1).

(** The two halves of the body of [main]: up to the early exit (lines
    166-184), and from the reconciliation of production on (lines
    186-200).  [main_body] is the first followed by the second. *)
Definition main_until_promote : M B unit :=
  print "--- Starting GitOps Workflow ---" ;;;
  print (nl +:+ "[Phase 1] Deploying to Staging ("
         +:+ DATAIKU_INFRA_ID_STAGING +:+ ")...") ;;;
  deploy DATAIKU_INFRA_ID_STAGING ;;;
  print (nl +:+ "[Phase 2] Running Tests on Staging...") ;;;
  tests_passed <-
    run_tests (PYTHON_SCRIPT cfg) (DATAIKU_INSTANCE_STAGING_URL cfg)
      (DATAIKU_API_TOKEN_STAGING cfg) (DATAIKU_PROJECT_KEY cfg) ;;
  (if negb tests_passed
   then print "Tests failed in staging. Aborting." ;;; sys_exit 1
   else ret tt) ;;;
  print "Tests passed in staging." ;;;
  (if RUN_TESTS_ONLY cfg
   then print "RUN_TESTS_ONLY=true. Skipping Prod deployment." ;;; sys_exit 0
   else ret tt).

Definition main_from_promote : M B unit :=
  print (nl +:+ "[Phase 3] Deploying to Production ("
         +:+ DATAIKU_INFRA_ID_PROD +:+ ")...") ;;;
  deploy DATAIKU_INFRA_ID_PROD ;;;
  print (nl +:+ "[Phase 4] Verifying Production...") ;;;
  prod_tests_passed <-
    run_tests (PYTHON_SCRIPT cfg) (DATAIKU_INSTANCE_PROD_URL cfg)
      (DATAIKU_API_TOKEN_PROD cfg) (DATAIKU_PROJECT_KEY cfg) ;;
  if prod_tests_passed : bool
  then print "Deployment and verification successful!"
  else print "WARNING: Production tests failed after deployment." ;;; sys_exit 1.

(** Exit status of [python dataiku_gitops_action.py]: 0 when [main]
    returns, 1 when an exception leaves it uncaught (nothing exits any
    other way, see [sys_exit]). *)
Definition exit_status (x : X B) : Z :=
  match main (start x) with
  | (Ok _, _) => 0
  | (Raise _, _) => 1
  end.

End Script.

(** ** An in-memory deployer *)

(** Modelled from the spec: [dataikuapi] and the DSS nodes behind it are
    not part of the repository.  This backend follows the Deployment
    Client interface: listing bundles fails for a project the deployer
    does not know, exporting fails with an "already exists" message when
    the bundle was exported before, fetching a deployment fails when it is
    absent, creating one fails when it is present.  It is used to run the
    script on concrete worlds and to state what a second reconciliation
    finds after a first one. *)
Module InMemory.

Record World := {
  head : option string;                    (* printed by git rev-parse; None: git fails *)
  design_projects : gset string;           (* projects of the design node *)
  exported : gset (string * string);       (* (project, bundle) exported there *)
  published : gmap string (gset string);   (* deployer: project -> bundles *)
  deployments : gmap string (gmap string string); (* deployer: id -> raw settings *)
  locked : gset string;                    (* deployments the key may not write *)
  infras : gset string;                    (* infrastructures that can activate *)
  live : gmap string string                (* deployment id -> activated bundle *)
}.

Definition DataikuException (msg : string) : exn := Exn "DataikuException" msg.

Definition with_exported v (w : World) : World :=
  {| head := head w; design_projects := design_projects w; exported := v;
     published := published w; deployments := deployments w;
     locked := locked w; infras := infras w; live := live w |}.

Definition with_published v (w : World) : World :=
  {| head := head w; design_projects := design_projects w;
     exported := exported w; published := v; deployments := deployments w;
     locked := locked w; infras := infras w; live := live w |}.

Definition with_deployments v (w : World) : World :=
  {| head := head w; design_projects := design_projects w;
     exported := exported w; published := published w; deployments := v;
     locked := locked w; infras := infras w; live := live w |}.

Definition with_live v (w : World) : World :=
  {| head := head w; design_projects := design_projects w;
     exported := exported w; published := published w;
     deployments := deployments w; locked := locked w; infras := infras w;
     live := v |}.

Definition with_head v (w : World) : World :=
  {| head := v; design_projects := design_projects w;
     exported := exported w; published := published w;
     deployments := deployments w; locked := locked w; infras := infras w;
     live := live w |}.

Definition mem_git_rev_parse (w : World) : res string :=
  match head w with
  | Some out => Ok out
  | None => Raise (Exn "CalledProcessError" "git rev-parse failed")
  end.

Definition mem_list_bundles (p : string) (w : World)
  : res (list BundleDesc) * World :=
  match published w !! p with
  | Some bs => (Ok (map Build_BundleDesc (elements bs)), w)
  | None => (Raise (DataikuException ("Project " +:+ p +:+ " not found")), w)
  end.

Definition mem_export_bundle (p bundle_id : string) (w : World)
  : res unit * World :=
  if bool_decide (p ∈ design_projects w) then
    if bool_decide ((p, bundle_id) ∈ exported w)
    then (Raise (DataikuException ("Bundle " +:+ bundle_id +:+ " already exists")), w)
    else (Ok tt, with_exported ({[ (p, bundle_id) ]} ∪ exported w) w)
  else (Raise (DataikuException ("Project " +:+ p +:+ " not found")), w).

Definition mem_publish_bundle (p bundle_id : string) (w : World)
  : res unit * World :=
  if bool_decide ((p, bundle_id) ∈ exported w) then
    let bs := default ∅ (published w !! p) in
    if bool_decide (bundle_id ∈ bs)
    then (Raise (DataikuException ("Bundle " +:+ bundle_id +:+ " was published before")), w)
    else (Ok tt, with_published (<[p := {[ bundle_id ]} ∪ bs]> (published w)) w)
  else (Raise (DataikuException ("Bundle " +:+ bundle_id +:+ " not found")), w).

Definition mem_get_deployment (deployment_id : string) (w : World)
  : res string * World :=
  match deployments w !! deployment_id with
  | Some _ => (Ok deployment_id, w)
  | None =>
      (Raise (DataikuException ("Deployment " +:+ deployment_id +:+ " not found")), w)
  end.

Definition mem_get_settings (d : string) (w : World)
  : res (Settings string) * World :=
  match deployments w !! d with
  | Some raw => (Ok {| settings_of := d; get_raw := raw |}, w)
  | None => (Raise (DataikuException ("Deployment " +:+ d +:+ " not found")), w)
  end.

Definition mem_save (s : Settings string) (w : World) : res unit * World :=
  match deployments w !! settings_of s with
  | Some _ =>
      if bool_decide (settings_of s ∈ locked w)
      then (Raise (DataikuException "Permission denied"), w)
      else (Ok tt,
            with_deployments (<[settings_of s := get_raw s]> (deployments w)) w)
  | None =>
      (Raise (DataikuException ("Deployment " +:+ settings_of s +:+ " not found")), w)
  end.

Definition mem_create_deployment (deployment_id : string) (project_key : pyval)
    (infra_id bundle_id : string) (w : World) : res string * World :=
  match deployments w !! deployment_id with
  | Some _ =>
      (Raise (DataikuException
                ("Deployment " +:+ deployment_id +:+ " already exists")), w)
  | None =>
      if bool_decide (deployment_id ∈ locked w)
      then (Raise (DataikuException "Permission denied"), w)
      else
        let raw : gmap string string :=
          <["bundleId" := bundle_id]>
            (<["infraId" := infra_id]>
               (<["projectKey" := pystr project_key]> ∅)) in
        (Ok deployment_id,
         with_deployments (<[deployment_id := raw]> (deployments w)) w)
  end.

(** The activation succeeds when the deployment is bound to a bundle the
    deployer holds and sits on an infrastructure that can run it. *)
Definition can_activate (raw : gmap string string) (w : World) : option string :=
  match raw !! "bundleId", raw !! "infraId", raw !! "projectKey" with
  | Some b, Some i, Some p =>
      if bool_decide (i ∈ infras w)
         && bool_decide (b ∈ default ∅ (published w !! p))
      then Some b else None
  | _, _, _ => None
  end.

Definition mem_wait_for_result (d : string) (w : World)
  : res ActivationResult * World :=
  match deployments w !! d with
  | Some raw =>
      match can_activate raw w with
      | Some b => (Ok ActSuccess, with_live (<[d := b]> (live w)) w)
      | None => (Raise (DataikuException "Deployment update failed"), w)
      end
  | None => (Raise (DataikuException ("Deployment " +:+ d +:+ " not found")), w)
  end.

(** Modelled from the spec: the operations of the Deployment Client
    interface, on a [World]; the backend is given for a behaviour of the
    test script. *)
Definition backend
    (script : string -> pyval -> pyval -> pyval -> World
              -> res CompletedProcess * World) : Backend :=
  {| X := World;
     Deployer := unit;
     DeployerProject := string;
     Project := string;
     Deployment := string;
     Future := string;
     git_rev_parse := mem_git_rev_parse;
     run_python := script;
     get_projectdeployer := fun _ w => (Ok tt, w);
     deployer_get_project := fun _ pk w => (Ok (pystr pk), w);
     list_bundles := mem_list_bundles;
     client_get_project := fun _ pk w => (Ok (pystr pk), w);
     export_bundle := mem_export_bundle;
     publish_bundle := mem_publish_bundle;
     get_deployment := fun _ => mem_get_deployment;
     get_settings := mem_get_settings;
     save := mem_save;
     create_deployment := fun _ => mem_create_deployment;
     start_update := mem_get_deployment;
     wait_for_result := mem_wait_for_result |}.

(** Test scripts. *)
Definition passing_script (_ : string) (_ _ _ : pyval) (w : World)
  : res CompletedProcess * World :=
  (Ok {| returncode := 0; proc_stdout := "ok"; proc_stderr := "" |}, w).

Definition failing_script (_ : string) (_ _ _ : pyval) (w : World)
  : res CompletedProcess * World :=
  (Ok {| returncode := 1; proc_stdout := ""; proc_stderr := "1 failed" |}, w).

(** A test script that passes and leaves the checkout on another commit. *)
Definition committing_script (_ : string) (_ _ _ : pyval) (w : World)
  : res CompletedProcess * World :=
  (Ok {| returncode := 0; proc_stdout := "ok"; proc_stderr := "" |},
   with_head (Some ("def5678" +:+ nl)) w).

(** A fresh deployer next to a design node that holds project MYPROJ. *)
Definition fresh : World :=
  {| head := Some ("abc1234" +:+ nl);
     design_projects := {[ "MYPROJ" ]};
     exported := ∅;
     published := ∅;
     deployments := ∅;
     locked := ∅;
     infras := {[ "staging"; "prod" ]};
     live := ∅ |}.

Definition environ (tests_only : string) : gmap string string :=
  list_to_map
    [("DATAIKU_API_TOKEN_DEV", "dev-token");
     ("DATAIKU_API_TOKEN_STAGING", "staging-token");
     ("DATAIKU_API_TOKEN_PROD", "prod-token");
     ("DATAIKU_INSTANCE_DEV_URL", "https://dev");
     ("DATAIKU_INSTANCE_STAGING_URL", "https://staging");
     ("DATAIKU_INSTANCE_PROD_URL", "https://prod");
     ("DATAIKU_PROJECT_KEY", "MYPROJ");
     ("RUN_TESTS_ONLY", tests_only)].

Definition config : Config := load_config (environ "false").
Definition config_tests_only : Config := load_config (environ "True").


(** What a reconciliation of [infra] to bundle [bid] leaves behind: the
    deployer holds the bundle, and the deployment of [infra] is bound to
    it, writable, and live with it. *)
Definition converged (cfg : Config) (infra bid : string) (w : World) : Prop :=
  let p := pystr (DATAIKU_PROJECT_KEY cfg) in
  let did := deployment_id_of cfg infra in
  (exists bs, published w !! p = Some bs /\ bid ∈ bs)
  /\ exists raw,
       deployments w !! did = Some raw
       /\ raw !! "bundleId" = Some bid
       /\ (did ∉ locked w)
       /\ can_activate raw w = Some bid
       /\ live w !! did = Some bid.

(** Worlds and runs used as examples. *)
Definition B0 : Backend := backend passing_script.

(** The world after a first [deploy("staging")] on [fresh]. *)
Definition deployed_once : World :=
  ext (deploy B0 config "staging" (@start B0 fresh)).2.

(** The same, with a key that may not write the staging deployment. *)
Definition locked_deployment : World :=
  {| head := head deployed_once;
     design_projects := design_projects deployed_once;
     exported := exported deployed_once;
     published := published deployed_once;
     deployments := deployments deployed_once;
     locked := {[ "deploy_MYPROJ_staging" ]};
     infras := infras deployed_once;
     live := live deployed_once |}.

(** An interrupted earlier run: the bundle was exported on the design
    node and never reached the deployer. *)
Definition half_exported : World :=
  with_exported {[ ("MYPROJ", "bundle_abc1234") ]} fresh.

(** A design node that does not hold the project. *)
Definition no_design_project : World :=
  {| head := head fresh;
     design_projects := ∅;
     exported := exported fresh;
     published := published fresh;
     deployments := deployments fresh;
     locked := locked fresh;
     infras := infras fresh;
     live := live fresh |}.

Definition environ_without_dev_url : gmap string string :=
  delete "DATAIKU_INSTANCE_DEV_URL" (environ "false").

(** The development URL is set, to the empty string. *)
Definition environ_empty_dev_url : gmap string string :=
  <["DATAIKU_INSTANCE_DEV_URL" := ""]> (environ "false").

(** A directory that is no git checkout. *)
Definition no_checkout : World := with_head None fresh.

End InMemory.

(** ** Reading the log *)

#[global] Instance exn_eq_dec : EqDecision exn.
Proof. solve_decision. Defined.
#[global] Instance DSSClient_eq_dec : EqDecision DSSClient.
Proof. solve_decision. Defined.
#[global] Instance call_eq_dec : EqDecision call.
Proof. solve_decision. Defined.
#[global] Instance event_eq_dec : EqDecision event.
Proof. solve_decision. Defined.

(** What a computation added to the log and to the output. *)
Definition new_events {B} (st st' : St B) : list event :=
  drop (length (trace st)) (trace st').

Definition new_lines {B} (st st' : St B) : list string :=
  drop (length (stdout st)) (stdout st').

Definition is_create (ev : event) : bool :=
  match ev with
  | Remote (CreateDeployment _ _ _ _) _ => true
  | _ => false
  end.

Definition is_export_or_publish (ev : event) : bool :=
  match ev with
  | Remote (ExportBundle _) _ | Remote (PublishBundle _) _ => true
  | _ => false
  end.

(** The bundle identifier a call carries. *)
Definition bundle_of (ev : event) : option string :=
  match ev with
  | Remote (ExportBundle b) _ | Remote (PublishBundle b) _
  | Remote (CreateDeployment _ _ _ b) _ => Some b
  | Remote (Save b) _ => b
  | _ => None
  end.

(** The client a call on the client object itself goes through. *)
Definition client_of (ev : event) : option DSSClient :=
  match ev with
  | Remote (GetProjectDeployer c) _ | Remote (GetProject c _) _ => Some c
  | _ => None
  end.

(** The infrastructure a log entry enters [deploy] for. *)
Definition entered (ev : event) : option string :=
  match ev with
  | Deploy infra_id => Some infra_id
  | _ => None
  end.

(** The instance a log entry reports a verification of, with its verdict. *)
Definition tested (ev : event) : option (pyval * bool) :=
  match ev with
  | RunTests instance_url passed => Some (instance_url, passed)
  | _ => None
  end.

(** The [dataikuapi] method behind a log entry. *)
Definition method_of (ev : event) : option string :=
  match ev with
  | Remote c _ =>
      Some match c with
           | GetProjectDeployer _ => "DSSClient.get_projectdeployer"
           | DeployerGetProject _ => "DSSProjectDeployer.get_project"
           | ListBundles => "list_bundles"
           | GetProject _ _ => "DSSClient.get_project"
           | ExportBundle _ => "export_bundle"
           | PublishBundle _ => "publish_bundle"
           | GetDeployment _ => "get_deployment"
           | GetSettings => "get_settings"
           | Save _ => "save"
           | CreateDeployment _ _ _ _ => "create_deployment"
           | StartUpdate => "start_update"
           | WaitForResult => "wait_for_result"
           end
  | _ => None
  end.

(** The calls of [deploy] that sit under no handler of their own (lines
    90, 112, 124, 145, 154, 155): what they raise reaches the outer
    [except] of [deploy]. *)
Definition unguarded (c : call) : bool :=
  match c with
  | GetProjectDeployer _ | GetProject _ _ | PublishBundle _
  | CreateDeployment _ _ _ _ | StartUpdate | WaitForResult => true
  | _ => false
  end.

(** The verdict of the first [run_tests] of a run: in [main] that is the
    verification of staging (line 174); the one of production (line 194)
    comes after [deploy(DATAIKU_INFRA_ID_PROD)]. *)
Fixpoint staging_verdict (evs : list event) : option bool :=
  match evs with
  | [] => None
  | RunTests _ passed :: _ => Some passed
  | _ :: rest => staging_verdict rest
  end.

(** One step of the outside world: what a single call of the backend can
    do to it. *)
Inductive ext_step (B : Backend) : X B -> X B -> Prop :=
| step_run_python s u k p x : ext_step B x (run_python B s u k p x).2
| step_get_projectdeployer c x : ext_step B x (get_projectdeployer B c x).2
| step_deployer_get_project d p x : ext_step B x (deployer_get_project B d p x).2
| step_list_bundles d x : ext_step B x (list_bundles B d x).2
| step_client_get_project c p x : ext_step B x (client_get_project B c p x).2
| step_export_bundle p b x : ext_step B x (export_bundle B p b x).2
| step_publish_bundle p b x : ext_step B x (publish_bundle B p b x).2
| step_get_deployment d i x : ext_step B x (get_deployment B d i x).2
| step_get_settings d x : ext_step B x (get_settings B d x).2
| step_save s x : ext_step B x (save B s x).2
| step_create_deployment d i p f b x :
    ext_step B x (create_deployment B d i p f b x).2
| step_start_update d x : ext_step B x (start_update B d x).2
| step_wait_for_result f x : ext_step B x (wait_for_result B f x).2.

Section PromoteDefs.
Context (B : Backend) (cfg : Config).

(** What one call of [deploy], started in world [x], may add to the log
    after its own entry. *)
Definition stage_events (x : X B) (evs : list event) : Prop :=
  Forall (fun ev =>
    (exists c o, ev = Remote c o) /\
    forall b, bundle_of ev = Some b ->
              b = generate_bundle_id (get_git_sha B x)) evs.

(** The runs of [main] started in world [x]: how it ends and the log it
    leaves, one case per terminal state of the promotion. *)
Inductive main_run (x : X B) : res unit -> list event -> Prop :=
| failed_at_stage evs1 :
    stage_events x evs1 ->
    main_run x (Raise (NameError "sys"))
      (Deploy DATAIKU_INFRA_ID_STAGING :: evs1)
| failed_at_staging_verification evs1 :
    stage_events x evs1 ->
    main_run x (Raise (NameError "sys"))
      (Deploy DATAIKU_INFRA_ID_STAGING :: evs1
       ++ [RunTests (DATAIKU_INSTANCE_STAGING_URL cfg) false])
| verification_only evs1 :
    RUN_TESTS_ONLY cfg = true ->
    stage_events x evs1 ->
    main_run x (Raise (NameError "sys"))
      (Deploy DATAIKU_INFRA_ID_STAGING :: evs1
       ++ [RunTests (DATAIKU_INSTANCE_STAGING_URL cfg) true])
| failed_at_promote evs1 x2 evs2 :
    RUN_TESTS_ONLY cfg = false ->
    stage_events x evs1 -> rtc (ext_step B) x x2 -> stage_events x2 evs2 ->
    main_run x (Raise (NameError "sys"))
      (Deploy DATAIKU_INFRA_ID_STAGING :: evs1
       ++ RunTests (DATAIKU_INSTANCE_STAGING_URL cfg) true
       :: Deploy DATAIKU_INFRA_ID_PROD :: evs2)
| prod_verification_failed evs1 x2 evs2 :
    RUN_TESTS_ONLY cfg = false ->
    stage_events x evs1 -> rtc (ext_step B) x x2 -> stage_events x2 evs2 ->
    main_run x (Raise (NameError "sys"))
      (Deploy DATAIKU_INFRA_ID_STAGING :: evs1
       ++ RunTests (DATAIKU_INSTANCE_STAGING_URL cfg) true
       :: Deploy DATAIKU_INFRA_ID_PROD :: evs2
       ++ [RunTests (DATAIKU_INSTANCE_PROD_URL cfg) false])
| success evs1 x2 evs2 :
    RUN_TESTS_ONLY cfg = false ->
    stage_events x evs1 -> rtc (ext_step B) x x2 -> stage_events x2 evs2 ->
    main_run x (Ok tt)
      (Deploy DATAIKU_INFRA_ID_STAGING :: evs1
       ++ RunTests (DATAIKU_INSTANCE_STAGING_URL cfg) true
       :: Deploy DATAIKU_INFRA_ID_PROD :: evs2
       ++ [RunTests (DATAIKU_INSTANCE_PROD_URL cfg) true]).

End PromoteDefs.

(** ** Proof tools *)

(** Symbolic execution of a run [H : m st = (r, st')]: every call of the
    backend is split into its two outcomes, unless a hypothesis already
    tells the outcome. *)
Ltac exec1 H :=
  match type of H with
  | context [match ?o with Some _ => _ | None => _ end] =>
      first [ match goal with E : o = _ |- _ => rewrite E in H end
            | destruct o eqn:? ]
  | context [if ?b then _ else _] =>
      first [ match goal with E : b = _ |- _ => rewrite E in H end
            | destruct b eqn:? ]
  | context [let (_, _) := ?op ?x in _] =>
      first [ match goal with E : op x = _ |- _ => rewrite E in H end
            | destruct (op x) as [[?|?] ?] eqn:? ]
  end.

Ltac exec H :=
  unfold deploy, deploy_body, run_tests, getattr, bind, try_except, ret, raise,
    print, mark, invoke, ask, subprocess in H;
  repeat (cbn [fst snd ext trace stdout get_raw settings_of] in H; exec1 H);
  cbn [fst snd ext trace stdout raised get_raw settings_of] in H;
  rewrite ?lookup_insert_eq in H;
  injection H as <- <-.

Ltac tidy :=
  unfold new_events, new_lines; cbn [fst snd ext trace stdout];
  rewrite <- ?app_assoc; rewrite ?drop_app_length; cbn [app].

Ltac split_elem :=
  repeat match goal with
    | H : _ ∈ _ :: _ |- _ =>
        apply elem_of_cons in H as [H|H]; [try discriminate H|]
    | H : _ ∈ [] |- _ => apply elem_of_nil in H; destruct H
    end.

Ltac find_elem :=
  repeat first [apply list_elem_of_here | apply list_elem_of_further].

Ltac main_exec H :=
  unfold main, main_body, sys_exit, bind, try_except, ret, raise, print in H;
  repeat (cbn [fst snd ext trace stdout] in H; exec1 H);
  cbn [fst snd ext trace stdout] in H;
  injection H as <- <-.

Lemma scan_bundles_true bundles bundle_id :
  scan_bundles bundles bundle_id = true <-> bundle_id ∈ map bundleId bundles.
Proof.
  induction bundles as [|b rest IH]; cbn.
  - split; [discriminate | intros H; inversion H].
  - destruct (String.eqb_spec (bundleId b) bundle_id) as [->|Hne].
    + split; [intros _; apply list_elem_of_here | reflexivity].
    + rewrite IH, elem_of_cons. split; [tauto | intros [E|E]; congruence].
Qed.

Lemma get_client_Some cert url token c :
  get_client cert url token = Some c ->
  truthy url = true /\ truthy token = true
  /\ c = {| host := pystr url; api_key := pystr token;
            no_check_certificate := true; client_certificate := cert |}.
Proof.
  unfold get_client.
  destruct (truthy url), (truthy token); cbn; intros [= <-]; auto.
Qed.

(** ** The reconciler, [deploy] *)
Section Reconcile.
Context (B : Backend) (cfg : Config).

(** What [deploy] adds to the log starts with its own entry and goes on
    with [dataikuapi] calls only; every bundle identifier in them is the
    one derived from the checkout as it was when the call started. *)
Lemma deploy_frame infra (st : St B) r st' :
  deploy B cfg infra st = (r, st') ->
  exists evs lines,
    trace st' = trace st ++ Deploy infra :: evs
    /\ stdout st' = stdout st ++ lines
    /\ Forall (fun ev =>
         (exists c o, ev = Remote c o) /\
         forall b, bundle_of ev = Some b ->
                   b = generate_bundle_id (get_git_sha B (ext st))) evs.
Proof.
  intros H. exec H; cbn [trace stdout]; rewrite <- ?app_assoc; cbn [app].
  all: do 2 eexists; split; [reflexivity|split; [reflexivity|]].
  all: repeat constructor; cbn; eauto; try discriminate; try congruence.
Qed.

(** The outside world after [deploy] is reached from the one before by
    calls of the backend. *)
Lemma deploy_steps infra (st : St B) r st' :
  deploy B cfg infra st = (r, st') -> rtc (ext_step B) (ext st) (ext st').
Proof.
  intros H. exec H; cbn [ext].
  all: repeat match goal with
         | E : ?op ?x = (_, ?x') |- rtc _ ?x _ =>
             apply (rtc_l _ x x');
             [ replace x' with (op x).2 by (rewrite E; reflexivity);
               constructor | clear E ]
         end.
  all: apply rtc_refl.
Qed.

(** C4 (as amended).  Create-vs-update: in every call of [deploy], if
    the lookup of the deployment fails, [create_deployment] is called
    exactly once, with the deployment identifier, the target
    infrastructure and the computed bundle identifier; if the lookup
    succeeds and the settings are fetched, the computed bundle
    identifier is put in them and [save] is called with it, and if that
    [save] succeeds too, [create_deployment] is not called at all. *)
Theorem create_or_update infra (st : St B) :
  let evs := new_events st (deploy B cfg infra st).2 in
  let did := deployment_id_of cfg infra in
  let bid := generate_bundle_id (get_git_sha B (ext st)) in
  (forall e, Remote (GetDeployment did) (Some e) ∈ evs ->
     exists r, List.filter is_create evs
       = [Remote (CreateDeployment did (DATAIKU_PROJECT_KEY cfg) infra bid) r])
  /\ (Remote (GetDeployment did) None ∈ evs ->
        (Remote GetSettings None ∈ evs ->
           exists r, Remote (Save (Some bid)) r ∈ evs)
        /\ (Remote (Save (Some bid)) None ∈ evs ->
              List.filter is_create evs = [])).
Proof.
  intros evs did bid. subst evs.
  destruct (deploy B cfg infra st) as [r st'] eqn:H.
  exec H; tidy.
  all: split; [intros e' Hin | intros Hin; split; intros Hin'].
  all: split_elem.
  all: first [ reflexivity
             | eexists; reflexivity
             | eexists; find_elem ].
Qed.

(** The catch-all around the update path: a deployment that is found but
    whose settings cannot be read or saved is created again. *)
Lemma update_failure_falls_back_to_create infra (st : St B) e :
  let evs := new_events st (deploy B cfg infra st).2 in
  let did := deployment_id_of cfg infra in
  let bid := generate_bundle_id (get_git_sha B (ext st)) in
  Remote (GetDeployment did) None ∈ evs ->
  Remote GetSettings (Some e) ∈ evs \/ Remote (Save (Some bid)) (Some e) ∈ evs ->
  exists r, Remote (CreateDeployment did (DATAIKU_PROJECT_KEY cfg) infra bid) r ∈ evs.
Proof.
  intros evs did bid. subst evs.
  destruct (deploy B cfg infra st) as [r st'] eqn:H.
  exec H; tidy.
  all: intros Hin [Hin'|Hin']; split_elem.
  all: eexists; find_elem.
Qed.

(** C5.  Conflict swallow at the export step: when [export_bundle]
    raises and the message contains "already exists", the failure is
    swallowed: [publish_bundle] is still called, and once it returns the
    run goes on to the lookup of the deployment; an export failure of
    any other kind is what [deploy] raises, and nothing is called after
    it. *)
Theorem conflict_swallow infra (st : St B) e :
  let run := deploy B cfg infra st in
  let evs := new_events st run.2 in
  let did := deployment_id_of cfg infra in
  let bid := generate_bundle_id (get_git_sha B (ext st)) in
  Remote (ExportBundle bid) (Some e) ∈ evs ->
  if contains "already exists" (str e)
  then
    "Bundle existed in Project but not Deployer. Proceeding to publish."
      ∈ new_lines st run.2
    /\ exists r, Remote (PublishBundle bid) r ∈ evs
                 /\ (r = None -> exists r', Remote (GetDeployment did) r' ∈ evs)
  else
    run.1 = Raise e
    /\ last evs = Some (Remote (ExportBundle bid) (Some e))
    /\ Forall (fun ev => bundle_of ev = Some bid -> ev = Remote (ExportBundle bid) (Some e)) evs.
Proof.
  intros run evs did bid. subst run evs.
  destruct (deploy B cfg infra st) as [r st'] eqn:H.
  exec H; tidy.
  all: intros Hin; split_elem.
  all: try match goal with
         | E : Remote (ExportBundle _) (Some _) = Remote (ExportBundle _) _ |- _ =>
             injection E as ->
         end.
  all: match goal with
       | E : contains _ _ = _ |- _ => rewrite E
       end.
  all: try (split; [find_elem | eexists; split; [find_elem | ]];
            first [ discriminate | intros _; eexists; find_elem ]).
  all: split; [reflexivity | split; [reflexivity | ]].
  all: repeat constructor; cbn; congruence.
Qed.

(** C6.  Bundle-export skip: when the deployer's listing of the
    project's bundles contains the computed bundle identifier, the call
    of [deploy] makes no [export_bundle] and no [publish_bundle] call. *)
Theorem bundle_export_skip infra (st : St B) c d x1 dp x2 bundles x3 :
  client_dev cfg = Some c ->
  get_projectdeployer B c (ext st) = (Ok d, x1) ->
  deployer_get_project B d (DATAIKU_PROJECT_KEY cfg) x1 = (Ok dp, x2) ->
  list_bundles B dp x2 = (Ok bundles, x3) ->
  generate_bundle_id (get_git_sha B (ext st)) ∈ map bundleId bundles ->
  let st' := (deploy B cfg infra st).2 in
  Forall (fun ev => is_export_or_publish ev = false) (new_events st st')
  /\ ("Bundle '" +:+ generate_bundle_id (get_git_sha B (ext st))
      +:+ "' already exists in Deployer. Skipping export.") ∈ new_lines st st'.
Proof.
  intros Hc Hd Hp Hl Hin st'. subst st'.
  apply scan_bundles_true in Hin.
  destruct (deploy B cfg infra st) as [r st'] eqn:H.
  exec H; tidy.
  all: try congruence.
  all: split; [repeat constructor | find_elem].
Qed.

(** C8.  Expected absence at the bundle-existence check: when the lookup
    of the project in the deployer, or the listing of its bundles,
    raises, the exception stops there: the bundle counts as absent, the
    "not found" line is printed and the next call is the one that opens
    the export branch, [client_dev.get_project]. *)
Theorem listing_failure_tolerated infra (st : St B) e :
  let st' := (deploy B cfg infra st).2 in
  let evs := new_events st st' in
  let pk := DATAIKU_PROJECT_KEY cfg in
  let bid := generate_bundle_id (get_git_sha B (ext st)) in
  Remote (DeployerGetProject pk) (Some e) ∈ evs \/ Remote ListBundles (Some e) ∈ evs ->
  exists c listing r rest,
    client_dev cfg = Some c
    /\ evs = Deploy infra :: Remote (GetProjectDeployer c) None
             :: listing ++ Remote (GetProject c pk) r :: rest
    /\ (listing = [Remote (DeployerGetProject pk) (Some e)]
        \/ listing = [Remote (DeployerGetProject pk) None;
                      Remote ListBundles (Some e)])
    /\ ("Bundle '" +:+ bid +:+ "' not found. Exporting from Design node...")
         ∈ new_lines st st'.
Proof.
  intros st' evs pk bid. subst st' evs.
  destruct (deploy B cfg infra st) as [r st'] eqn:H.
  exec H; tidy.
  all: intros [Hin|Hin]; split_elem.
  all: try match goal with
         | E : Remote _ (Some _) = Remote _ (Some _) |- _ => injection E as ->
         end.
  all: eexists _, _, _, _; split; [reflexivity|].
  all: first
         [ split; [exact (eq_refl : _ = _ :: _ :: [_] ++ _ :: _) |];
           split; [left; reflexivity | find_elem]
         | split; [exact (eq_refl : _ = _ :: _ :: [_; _] ++ _ :: _) |];
           split; [right; reflexivity | find_elem] ].
Qed.

(** C9 (as amended).  Failure of [deploy]: an exception that no inner
    handler takes is printed after "Failed to deploy: " and raised
    again as it is, the same exception with the same message; the call
    then returns nothing.  [deploy] returns only after
    [wait_for_result] returned. *)
Theorem failure_reraised_unchanged infra (st : St B) :
  let run := deploy B cfg infra st in
  let evs := new_events st run.2 in
  let lines := new_lines st run.2 in
  (forall e, run.1 = Raise e ->
     last lines = Some ("Failed to deploy: " +:+ str e)
     /\ ((exists c, last evs = Some (Remote c (Some e)))
         \/ (client_dev cfg = None
             /\ e = AttributeError "get_projectdeployer"
             /\ evs = [Deploy infra])))
  /\ (forall c e, last evs = Some (Remote c (Some e)) -> run.1 = Raise e)
  /\ (forall u, run.1 = Ok u ->
        last evs = Some (Remote WaitForResult None)
        /\ last lines
           = Some ("SUCCESS: Deployed "
                   +:+ generate_bundle_id (get_git_sha B (ext st))
                   +:+ " to " +:+ infra)).
Proof.
  intros run evs lines. subst run evs lines.
  destruct (deploy B cfg infra st) as [r st'] eqn:H.
  exec H; tidy.
  all: split; [intros e' [= <-] | split; [intros c' e' [= ? ?] | intros u [= ?]]].
  all: subst; try discriminate; eauto.
Qed.

(** What [wait_for_result] returns is not looked at: once it has returned,
    whatever the result, [deploy] returns. *)
Lemma returned_result_not_inspected infra (st : St B) :
  let run := deploy B cfg infra st in
  Remote WaitForResult None ∈ new_events st run.2 -> run.1 = Ok tt.
Proof.
  intros run. subst run.
  destruct (deploy B cfg infra st) as [r st'] eqn:H.
  exec H; tidy.
  all: intros Hin; split_elem.
  all: reflexivity.
Qed.

End Reconcile.

(** C10.  The development client is the only way out: with the
    development URL or token unset, [client_dev] is [None] and every
    call of [deploy], whatever the infrastructure, raises
    [AttributeError] before any remote call, leaving the outside world
    as it was; and when [client_dev] is there, every call on a client
    object goes through it. *)
Theorem dev_client_required B (environ : gmap string string) infra (st : St B) :
  let cfg := load_config environ in
  let run := deploy B cfg infra st in
  (environ !! "DATAIKU_INSTANCE_DEV_URL" = None
   \/ environ !! "DATAIKU_API_TOKEN_DEV" = None ->
     client_dev cfg = None
     /\ run.1 = Raise (AttributeError "get_projectdeployer")
     /\ new_events st run.2 = [Deploy infra]
     /\ ext run.2 = ext st)
  /\ (forall ev c, ev ∈ new_events st run.2 -> client_of ev = Some c ->
        client_dev cfg = Some c
        /\ environ !! "DATAIKU_INSTANCE_DEV_URL" = Some (host c)
        /\ environ !! "DATAIKU_API_TOKEN_DEV" = Some (api_key c)).
Proof.
  intros cfg run. subst cfg run. split.
  - intros Hunset.
    assert (Hnone : client_dev (load_config environ) = None).
    { unfold client_dev, get_client; cbn.
      destruct Hunset as [-> | ->]; cbn; [reflexivity|].
      destruct (truthy _); reflexivity. }
    split; [exact Hnone|].
    destruct (deploy B (load_config environ) infra st) as [r st'] eqn:H.
    exec H; tidy. auto.
  - intros ev c Hin Hc.
    assert (Hsome : client_dev (load_config environ) = Some c).
    { destruct (deploy B (load_config environ) infra st) as [r st'] eqn:H.
      revert Hin. exec H; tidy; intros Hin; split_elem; subst ev.
      all: cbn in Hc; congruence. }
    split; [exact Hsome|].
    unfold client_dev in Hsome. cbn in Hsome.
    apply get_client_Some in Hsome as (Hu & Ht & ->). cbn.
    destruct (environ !! "DATAIKU_INSTANCE_DEV_URL") as [u|] eqn:Eu;
      [|discriminate Hu].
    destruct (environ !! "DATAIKU_API_TOKEN_DEV") as [t|] eqn:Et;
      [|discriminate Ht].
    auto.
Qed.

(** ** The orchestrator, [main] *)

Lemma staging_verdict_remote evs rest :
  Forall (fun ev => exists c o, ev = Remote c o) evs ->
  staging_verdict (evs ++ rest) = staging_verdict rest.
Proof.
  induction 1 as [|ev evs (c & o & ->) _ IH]; [reflexivity|exact IH].
Qed.

Section Promote.
Context (B : Backend) (cfg : Config).

(** [run_tests] never raises; it enters its verdict in the log. *)
Lemma run_tests_frame script url key pk (st : St B) r st' :
  run_tests B script url key pk st = (r, st') ->
  exists passed lines,
    r = Ok passed
    /\ trace st' = trace st ++ [RunTests url passed]
    /\ stdout st' = stdout st ++ lines
    /\ rtc (ext_step B) (ext st) (ext st').
Proof.
  intros H. exec H; cbn [trace stdout ext]; rewrite <- ?app_assoc.
  all: eexists _, _; split; [reflexivity|split; [reflexivity|split; [reflexivity|]]].
  all: match goal with
       | E : run_python B ?s ?u ?k ?p ?x = (_, ?x') |- _ =>
           apply rtc_once;
           replace x' with (run_python B s u k p x).2 by (rewrite E; reflexivity);
           constructor
       end.
Qed.

Lemma main_cases x :
  main_run B cfg x (main B cfg (start x)).1 (trace (main B cfg (start x)).2).
Proof.
  destruct (main B cfg (start x)) as [r st'] eqn:H.
  main_exec H.
  all: repeat match goal with
         | E : deploy _ _ _ _ = _ |- _ =>
             let Hs := fresh "Hs" in
             pose proof (deploy_steps _ _ _ _ _ _ E) as Hs;
             apply deploy_frame in E as (? & ? & ? & ? & ?)
         | E : run_tests _ _ _ _ _ _ = _ |- _ =>
             apply run_tests_frame in E as (? & ? & ? & ? & ? & ?)
         end.
  all: cbn [fst snd ext trace stdout start] in *.
  all: simplify_eq.
  all: repeat match goal with
         | b : bool |- _ => destruct b; try discriminate
         end.
  all: repeat match goal with
         | E : trace _ = _ |- _ => rewrite E; clear E
         end.
  all: cbn [app]; rewrite <- ?app_assoc; cbn [app].
  all: first
         [ eapply success; [assumption | eassumption | | eassumption]
         | eapply prod_verification_failed;
           [assumption | eassumption | | eassumption]
         | eapply failed_at_promote;
           [assumption | eassumption | | eassumption]
         | eapply verification_only; [assumption | eassumption]
         | eapply failed_at_staging_verification; eassumption
         | eapply failed_at_stage; eassumption ].
  all: etrans; eassumption.
Qed.

(** C7.  Production is not reconciled without a passed verification of
    staging: in a run where the verification of staging fails, or with
    [RUN_TESTS_ONLY] set, [deploy] is never entered for the production
    infrastructure; and when the verification of staging fails the
    process ends with a non-zero status. *)
Theorem production_needs_verified_staging x :
  let evs := trace (main B cfg (start x)).2 in
  (staging_verdict evs = Some false \/ RUN_TESTS_ONLY cfg = true ->
     Deploy DATAIKU_INFRA_ID_PROD ∉ evs)
  /\ (staging_verdict evs = Some false -> exit_status B cfg x <> 0%Z).
Proof.
  intros evs. subst evs. unfold exit_status.
  pose proof (main_cases x) as Hrun.
  destruct (main B cfg (start x)) as [r st']. cbn [fst snd] in *.
  assert (Hremote : forall x evs, stage_events B x evs ->
            Forall (fun ev => exists c o, ev = Remote c o) evs).
  { intros ? ? Hst. eapply Forall_impl; [exact Hst|]. cbn. tauto. }
  assert (Hno : forall x evs, stage_events B x evs ->
            Deploy DATAIKU_INFRA_ID_PROD ∉ evs).
  { intros ? ? Hst Hin. apply Hremote in Hst.
    rewrite Forall_forall in Hst. destruct (Hst _ Hin) as (? & ? & [=]). }
  inversion Hrun as [evs1 H1|evs1 H1|evs1 Hflag H1|evs1 x2 evs2 Hflag H1
                     |evs1 x2 evs2 Hflag H1|evs1 x2 evs2 Hflag H1];
    subst; cbn [staging_verdict];
    rewrite ?(staging_verdict_remote _ _ (Hremote _ _ H1));
    cbn [staging_verdict].
  all: split; [intros [[=]|Hf]; try congruence | intros [=]; try discriminate].
  all: rewrite ?not_elem_of_cons, ?not_elem_of_app, ?not_elem_of_cons.
  all: try (repeat split; try discriminate; eauto using not_elem_of_nil; fail).
Qed.
(** X16.  The exit status is 0 only in the runs that go through both
    reconciliations and both verifications. *)
Lemma exit_status_zero x :
  exit_status B cfg x = 0%Z ->
  RUN_TESTS_ONLY cfg = false
  /\ exists evs1 evs2,
       trace (main B cfg (start x)).2
       = Deploy DATAIKU_INFRA_ID_STAGING :: evs1
         ++ RunTests (DATAIKU_INSTANCE_STAGING_URL cfg) true
         :: Deploy DATAIKU_INFRA_ID_PROD :: evs2
         ++ [RunTests (DATAIKU_INSTANCE_PROD_URL cfg) true]
       /\ Forall (fun ev => exists c o, ev = Remote c o) (evs1 ++ evs2).
Proof.
  unfold exit_status.
  pose proof (main_cases x) as Hrun.
  destruct (main B cfg (start x)) as [r st']. cbn [fst snd] in *.
  inversion Hrun; subst; try discriminate. intros _.
  split; [assumption|]. eexists _, _. split; [reflexivity|].
  apply Forall_app; split; (eapply Forall_impl; [eassumption|]); cbn; tauto.
Qed.

(** X17.  With [RUN_TESTS_ONLY] set the process never ends with status 0:
    [sys.exit(0)] cannot be reached without [sys]. *)
Lemma tests_only_exit_status x :
  RUN_TESTS_ONLY cfg = true -> exit_status B cfg x = 1%Z.
Proof.
  intros Hflag. unfold exit_status.
  pose proof (main_cases x) as Hrun.
  destruct (main B cfg (start x)) as [r st']. cbn [fst snd] in *.
  inversion Hrun; subst; congruence.
Qed.

End Promote.

(** ** Reconciling twice, against the in-memory deployer *)
Section Idempotence.
Import InMemory.
Context (script : string -> pyval -> pyval -> pyval -> World
                  -> res CompletedProcess * World).
Context (cfg : Config).
Let B := backend script.

Lemma scan_elements (bs : gset string) bid :
  scan_bundles (map Build_BundleDesc (elements bs)) bid = true <-> bid ∈ bs.
Proof.
  rewrite scan_bundles_true, map_map. cbn. rewrite map_id.
  apply elem_of_elements.
Qed.

Lemma can_activate_bundle raw w b :
  can_activate raw w = Some b -> raw !! "bundleId" = Some b.
Proof.
  unfold can_activate. repeat case_match; congruence.
Qed.

Lemma can_activate_ext raw w w' :
  infras w' = infras w -> published w' = published w ->
  can_activate raw w' = can_activate raw w.
Proof.
  unfold can_activate. now intros -> ->.
Qed.

Lemma first_run_converges infra (st : St B) r st1 :
  deploy B cfg infra st = (r, st1) ->
  (exists u, r = Ok u) ->
  converged cfg infra (generate_bundle_id (get_git_sha B (ext st))) (ext st1)
  /\ head (ext st1) = head (ext st)
  /\ exists c, client_dev cfg = Some c.
Proof.
  intros H. exec H; intros [u [=]]; cbn [ext].
  all: cbn in *; simplify_eq.
  all: unfold mem_list_bundles, mem_export_bundle, mem_publish_bundle,
         mem_get_deployment, mem_get_settings, mem_save,
         mem_create_deployment, mem_wait_for_result in *.
  all: repeat (case_match; simplify_eq).
  all: repeat case_bool_decide; simplify_eq.
  all: cbn in *.
  all: split; [|split; [reflexivity|eauto]].
  all: unfold converged; cbn.
  all: rewrite ?lookup_insert_eq in *; simplify_eq.
  all: match goal with
       | E : can_activate _ _ = Some _ |- _ =>
           pose proof (can_activate_bundle _ _ _ E) as Hb;
           rewrite lookup_insert_eq in Hb; simplify_eq;
           erewrite can_activate_ext in E by reflexivity
       end.
  all: split;
         [ eexists; split; [first [eassumption | reflexivity]|];
           first [ now apply scan_elements
                 | apply elem_of_union; left; now apply elem_of_singleton ]
         | eexists; split; [reflexivity|];
           rewrite lookup_insert_eq; repeat split; try assumption ].
Qed.

Lemma with_deployments_id w : with_deployments (deployments w) w = w.
Proof. now destruct w. Qed.

Lemma with_live_id w : with_live (live w) w = w.
Proof. now destruct w. Qed.

Lemma converged_run infra (st : St B) c :
  let bid := generate_bundle_id (get_git_sha B (ext st)) in
  let did := deployment_id_of cfg infra in
  client_dev cfg = Some c ->
  converged cfg infra bid (ext st) ->
  deploy B cfg infra st
  = (Ok tt,
     {| ext := ext st;
        trace := trace st ++
          [Deploy infra;
           Remote (GetProjectDeployer c) None;
           Remote (DeployerGetProject (DATAIKU_PROJECT_KEY cfg)) None;
           Remote ListBundles None;
           Remote (GetDeployment did) None;
           Remote GetSettings None;
           Remote (Save (Some bid)) None;
           Remote StartUpdate None;
           Remote WaitForResult None];
        stdout := stdout st ++
          ["Bundle '" +:+ bid +:+ "' already exists in Deployer. Skipping export.";
           "Preparing deployment '" +:+ did +:+ "' on infra '" +:+ infra +:+ "'...";
           "Updated existing deployment to use bundle " +:+ bid;
           "Activating deployment on " +:+ infra +:+ "...";
           "SUCCESS: Deployed " +:+ bid +:+ " to " +:+ infra] |}).
Proof.
  intros bid did Hc ((bs & Hpub & Hin) & raw & Hdep & Hraw & Hlock & Hact & Hlive).
  apply scan_elements in Hin. subst bid did.
  unfold deploy, deploy_body, bind, try_except, getattr, invoke, ask, ret,
    print, mark, raise.
  rewrite Hc.
  cbn [fst snd ext trace stdout get_raw settings_of backend
       get_projectdeployer deployer_get_project list_bundles
       get_deployment get_settings save start_update wait_for_result B].
  unfold mem_list_bundles. rewrite Hpub.
  rewrite Hin.
  cbn [fst snd ext trace stdout get_raw settings_of].
  unfold mem_get_deployment, mem_get_settings, mem_save, mem_wait_for_result.
  rewrite Hdep.
  cbn [fst snd ext trace stdout get_raw settings_of].
  rewrite Hdep.
  cbn [fst snd ext trace stdout get_raw settings_of].
  rewrite Hdep, (bool_decide_eq_false_2 _ Hlock).
  rewrite (insert_id raw "bundleId" _ Hraw).
  rewrite (insert_id (deployments (ext st)) _ raw Hdep).
  rewrite with_deployments_id.
  cbn [fst snd ext trace stdout get_raw settings_of].
  rewrite Hdep.
  cbn [fst snd ext trace stdout get_raw settings_of].
  rewrite Hdep, Hact.
  rewrite (insert_id (live (ext st)) _ _ Hlive), with_live_id.
  cbn [fst snd ext trace stdout get_raw settings_of raised].
  rewrite Hraw. rewrite <- !app_assoc. reflexivity.
Qed.

(** C1.  Reconciliation is idempotent: for every project key,
    infrastructure and revision, a call of [deploy] that follows a
    successful one returns as well, leaves the deployer as the first call
    left it, with the deployment bound to the same bundle, and takes the
    bundle-exists and deployment-exists branches: it exports, publishes
    and creates nothing. *)
Theorem reconcile_idempotent infra (w : World) :
  let run1 := deploy B cfg infra (@start B w) in
  (exists u, run1.1 = Ok u) ->
  let run2 := deploy B cfg infra (@start B (ext run1.2)) in
  let bid := generate_bundle_id (get_git_sha B w) in
  let did := deployment_id_of cfg infra in
  run2.1 = Ok tt
  /\ ext run2.2 = ext run1.2
  /\ deployments (ext run2.2) !! did ≫= (.!! "bundleId") = Some bid
  /\ Forall (fun ev => is_export_or_publish ev = false /\ is_create ev = false)
       (trace run2.2)
  /\ Remote ListBundles None ∈ trace run2.2
  /\ Remote (GetDeployment did) None ∈ trace run2.2
  /\ ("Bundle '" +:+ bid +:+ "' already exists in Deployer. Skipping export.")
       ∈ stdout run2.2
  /\ ("Updated existing deployment to use bundle " +:+ bid) ∈ stdout run2.2.
Proof.
  intros run1 Hok run2 bid did. subst run1 run2.
  destruct (deploy B cfg infra (@start B w)) as [r st1] eqn:H.
  cbn [fst snd] in *.
  apply first_run_converges in H as (Hconv & Hhead & c & Hc); [|exact Hok].
  cbn [start ext] in Hconv, Hhead.
  assert (Hsha : get_git_sha B (ext st1) = get_git_sha B w).
  { unfold get_git_sha. cbn. unfold mem_git_rev_parse. now rewrite Hhead. }
  pose proof (converged_run infra (@start B (ext st1)) c Hc) as Hrun.
  cbn [start ext trace stdout] in Hrun. rewrite Hsha in Hrun.
  specialize (Hrun Hconv). fold bid did in Hrun.
  rewrite Hrun. cbn [fst snd ext trace stdout app].
  split; [reflexivity|]. split; [reflexivity|].
  destruct Hconv as (_ & raw & Hdep & Hraw & _).
  split; [fold did in Hdep; rewrite Hdep; exact Hraw|].
  split; [repeat constructor|].
  repeat split; find_elem.
Qed.

End Idempotence.

(** ** Runs on concrete worlds *)
Section Examples.
Import InMemory.

Lemma reconcile_idempotent_witness :
  let run1 := deploy B0 config "staging" (@start B0 fresh) in
  let run2 := deploy B0 config "staging" (@start B0 (ext run1.2)) in
  run1.1 = Ok tt
  /\ run2.1 = Ok tt
  /\ ext run2.2 = ext run1.2
  /\ Forall (fun ev => is_export_or_publish ev = false /\ is_create ev = false)
       (trace run2.2).
Proof.
  intros run1 run2.
  assert (H : run1.1 = Ok tt) by (vm_compute; reflexivity).
  split; [exact H|].
  destruct (reconcile_idempotent passing_script config "staging" fresh
              (ex_intro _ tt H))
    as (H1 & H2 & _ & H3 & _).
  auto.
Defined.

(** C2.  The run the exit contract fails on: [RUN_TESTS_ONLY] is set,
    staging is reconciled and its tests pass; [sys.exit(0)] then raises
    [NameError], the handler of [main] raises it again, and the process
    ends with status 1, not 0. *)
Theorem verification_only_exits_nonzero :
  let run := main B0 config_tests_only (@start B0 fresh) in
  RUN_TESTS_ONLY config_tests_only = true
  /\ staging_verdict (trace run.2) = Some true
  /\ "RUN_TESTS_ONLY=true. Skipping Prod deployment." ∈ stdout run.2
  /\ last (stdout run.2) = Some "An error occurred: name 'sys' is not defined"
  /\ run.1 = Raise (NameError "sys")
  /\ exit_status B0 config_tests_only fresh = 1%Z.
Proof.
  cbv zeta. repeat split; try (vm_compute; reflexivity).
  apply (bool_decide_unpack _). vm_compute. exact I.
Qed.

(** C3, as stated, fails: a test script that leaves the checkout on
    another commit makes a complete promotion bind staging to
    [bundle_abc1234] and production to [bundle_def5678]. *)
Lemma promotion_rederives_identity :
  let run := main (backend committing_script) config
               (@start (backend committing_script) fresh) in
  run.1 = Ok tt
  /\ Remote (CreateDeployment "deploy_MYPROJ_staging" (Some "MYPROJ")
               "staging" "bundle_abc1234") None ∈ trace run.2
  /\ Remote (CreateDeployment "deploy_MYPROJ_prod" (Some "MYPROJ")
               "prod" "bundle_def5678") None ∈ trace run.2.
Proof.
  cbv zeta. split; [vm_compute; reflexivity|].
  split; apply (bool_decide_unpack _); vm_compute; exact I.
Qed.

Lemma create_or_update_witness :
  let run1 := deploy B0 config "staging" (@start B0 fresh) in
  let run2 := deploy B0 config "staging" (@start B0 deployed_once) in
  (exists r, List.filter is_create (new_events (@start B0 fresh) run1.2)
     = [Remote (CreateDeployment "deploy_MYPROJ_staging" (Some "MYPROJ")
                  "staging" "bundle_abc1234") r])
  /\ (exists r, Remote (Save (Some "bundle_abc1234")) r
                  ∈ new_events (@start B0 deployed_once) run2.2)
  /\ List.filter is_create (new_events (@start B0 deployed_once) run2.2) = [].
Proof.
  intros run1 run2.
  pose proof (create_or_update B0 config "staging" (@start B0 fresh)) as [H1 _].
  pose proof (create_or_update B0 config "staging" (@start B0 deployed_once))
    as [_ H2].
  split.
  - apply (H1 (DataikuException "Deployment deploy_MYPROJ_staging not found")).
    apply (bool_decide_unpack _). vm_compute. exact I.
  - assert (Hin : Remote (GetDeployment (deployment_id_of config "staging")) None
                    ∈ new_events (@start B0 deployed_once) run2.2)
      by (apply (bool_decide_unpack _); vm_compute; exact I).
    destruct (H2 Hin) as [H3 H4]. split.
    + apply H3. apply (bool_decide_unpack _). vm_compute. exact I.
    + apply H4. apply (bool_decide_unpack _). vm_compute. exact I.
Defined.

(** C4, as stated, fails: the staging deployment is found, saving its
    settings is refused, and [create_deployment] is called all the
    same. *)
Lemma found_but_created_again :
  let st := @start B0 locked_deployment in
  let evs := new_events st (deploy B0 config "staging" st).2 in
  Remote (GetDeployment "deploy_MYPROJ_staging") None ∈ evs
  /\ Remote (Save (Some "bundle_abc1234"))
       (Some (DataikuException "Permission denied")) ∈ evs
  /\ List.filter is_create evs
     = [Remote (CreateDeployment "deploy_MYPROJ_staging" (Some "MYPROJ")
                  "staging" "bundle_abc1234")
          (Some (DataikuException
                   "Deployment deploy_MYPROJ_staging already exists"))].
Proof.
  cbv zeta. split; [|split].
  1,2: apply (bool_decide_unpack _); vm_compute; exact I.
  vm_compute. reflexivity.
Qed.

Lemma conflict_swallow_witness :
  let st := @start B0 half_exported in
  let run := deploy B0 config "staging" st in
  let e := DataikuException "Bundle bundle_abc1234 already exists" in
  Remote (ExportBundle "bundle_abc1234") (Some e) ∈ new_events st run.2
  /\ "Bundle existed in Project but not Deployer. Proceeding to publish."
       ∈ new_lines st run.2
  /\ exists r, Remote (PublishBundle "bundle_abc1234") r ∈ new_events st run.2.
Proof.
  intros st run e.
  assert (Hin : Remote (ExportBundle (generate_bundle_id (get_git_sha B0 (ext st))))
                  (Some e) ∈ new_events st run.2)
    by (apply (bool_decide_unpack _); vm_compute; exact I).
  split; [exact Hin|].
  destruct (conflict_swallow B0 config "staging" st e Hin) as (H1 & r & H2 & _).
  split; [exact H1|]. exists r. exact H2.
Defined.

Lemma bundle_export_skip_witness :
  let st := @start B0 deployed_once in
  Forall (fun ev => is_export_or_publish ev = false)
    (new_events st (deploy B0 config "staging" st).2).
Proof.
  intros st.
  refine (proj1 (bundle_export_skip B0 config "staging" st
            {| host := "https://dev"; api_key := "dev-token";
               no_check_certificate := true; client_certificate := None |}
            tt deployed_once "MYPROJ" deployed_once
            [Build_BundleDesc "bundle_abc1234"] deployed_once
            _ _ _ _ _)).
  1-4: reflexivity.
  apply (bool_decide_unpack _). vm_compute. exact I.
Defined.

Lemma production_needs_verified_staging_witness :
  let B1 := backend failing_script in
  (staging_verdict (trace (main B1 config (@start B1 fresh)).2) = Some false
   /\ (Deploy DATAIKU_INFRA_ID_PROD ∉ trace (main B1 config (@start B1 fresh)).2)
   /\ exit_status B1 config fresh <> 0%Z)
  /\ (RUN_TESTS_ONLY config_tests_only = true
      /\ (Deploy DATAIKU_INFRA_ID_PROD
            ∉ trace (main B0 config_tests_only (@start B0 fresh)).2)).
Proof.
  intros B1.
  assert (Hv : staging_verdict (trace (main B1 config (@start B1 fresh)).2)
               = Some false) by (vm_compute; reflexivity).
  assert (Hf : RUN_TESTS_ONLY config_tests_only = true) by reflexivity.
  destruct (production_needs_verified_staging B1 config fresh) as [H1 H2].
  destruct (production_needs_verified_staging B0 config_tests_only fresh)
    as [H3 _].
  split; [split; [exact Hv|split; [apply H1; left; exact Hv|apply H2; exact Hv]]|].
  split; [exact Hf|apply H3; right; exact Hf].
Defined.

Lemma listing_failure_tolerated_witness :
  let st := @start B0 fresh in
  let st' := (deploy B0 config "staging" st).2 in
  let e := DataikuException "Project MYPROJ not found" in
  Remote ListBundles (Some e) ∈ new_events st st'
  /\ exists c r,
       client_dev config = Some c
       /\ Remote (GetProject c (Some "MYPROJ")) r ∈ new_events st st'.
Proof.
  intros st st' e.
  assert (Hin : Remote ListBundles (Some e) ∈ new_events st st')
    by (apply (bool_decide_unpack _); vm_compute; exact I).
  split; [exact Hin|].
  destruct (listing_failure_tolerated B0 config "staging" st e (or_intror Hin))
    as (c & listing & r & rest & Hc & Hevs & _).
  exists c, r. split; [exact Hc|].
  unfold st'. rewrite Hevs.
  rewrite !elem_of_cons, elem_of_app, elem_of_cons. auto.
Defined.

Lemma failure_reraised_unchanged_witness :
  let st := @start B0 no_design_project in
  let run := deploy B0 config "staging" st in
  let e := DataikuException "Project MYPROJ not found" in
  run.1 = Raise e
  /\ last (new_lines st run.2)
     = Some "Failed to deploy: Project MYPROJ not found".
Proof.
  intros st run e.
  assert (H : run.1 = Raise e) by (vm_compute; reflexivity).
  split; [exact H|].
  destruct (failure_reraised_unchanged B0 config "staging" st) as (H1 & _).
  destruct (H1 e H) as [Hl _]. exact Hl.
Defined.

(** C9, as stated, fails: what [deploy("staging")] raises here is the
    very exception [export_bundle] raised, and neither its class nor its
    message names the infrastructure. *)
Lemma failure_not_wrapped :
  let run := deploy B0 config "staging" (@start B0 no_design_project) in
  let e := DataikuException "Project MYPROJ not found" in
  run.1 = Raise e
  /\ Remote (ExportBundle "bundle_abc1234") (Some e) ∈ trace run.2
  /\ contains "staging" (str e) = false
  /\ contains "staging" (exn_class e) = false.
Proof.
  cbv zeta. split; [vm_compute; reflexivity|].
  split; [apply (bool_decide_unpack _); vm_compute; exact I|].
  split; reflexivity.
Qed.

Lemma dev_client_required_witness :
  let cfg := load_config environ_without_dev_url in
  let run := deploy B0 cfg "prod" (@start B0 fresh) in
  environ_without_dev_url !! "DATAIKU_INSTANCE_DEV_URL" = None
  /\ client_dev cfg = None
  /\ run.1 = Raise (AttributeError "get_projectdeployer")
  /\ new_events (@start B0 fresh) run.2 = [Deploy "prod"]
  /\ ext run.2 = fresh.
Proof.
  intros cfg run.
  assert (H : environ_without_dev_url !! "DATAIKU_INSTANCE_DEV_URL" = None)
    by (vm_compute; reflexivity).
  split; [exact H|].
  exact (proj1 (dev_client_required B0 environ_without_dev_url "prod"
                  (@start B0 fresh)) (or_introl H)).
Defined.

End Examples.

(** ** Further properties of the script *)

Lemma append_inv_head (p a b : string) : p +:+ a = p +:+ b -> a = b.
Proof.
  induction p as [|c p IH]; cbn; [tauto|].
  intros [= H]. exact (IH H).
Qed.

(** X1.  [generate_bundle_id] is injective and reversible: two revisions
    get the same bundle identifier only if they are the same revision, and
    the revision is what follows the seven characters of "bundle_". *)
Theorem generate_bundle_id_injective (a b : string) :
  (generate_bundle_id a = generate_bundle_id b <-> a = b)
  /\ String.substring 7 (String.length a) (generate_bundle_id a) = a.
Proof.
  split; [split; [apply (append_inv_head "bundle_")|now intros ->]|].
  change (String.substring 0 (String.length a) a = a).
  induction a as [|c a IH]; simpl; [reflexivity|now rewrite IH].
Qed.

(** X2.  For one project, the deployment identifier tells the
    infrastructure: two infrastructures share a deployment only if they
    are the same; staging and production never do. *)
Theorem deployment_id_per_infra cfg (i1 i2 : string) :
  (deployment_id_of cfg i1 = deployment_id_of cfg i2 <-> i1 = i2)
  /\ deployment_id_of cfg DATAIKU_INFRA_ID_STAGING
     <> deployment_id_of cfg DATAIKU_INFRA_ID_PROD.
Proof.
  assert (Hinj : forall a b, deployment_id_of cfg a = deployment_id_of cfg b -> a = b).
  { unfold deployment_id_of. intros a b H.
    apply (append_inv_head "deploy_") in H.
    apply append_inv_head in H.
    now apply (append_inv_head "_") in H. }
  split; [split; [apply Hinj|now intros ->]|].
  intros H. apply Hinj in H. discriminate H.
Qed.

Section Reconcile2.
Context (B : Backend) (cfg : Config).

(** X3.  The bundle a call of [deploy] works on is fixed by what
    [git rev-parse] prints when the call starts: with output [out] it is
    "bundle_" followed by [out] stripped of white space, and whenever git
    fails, for whatever reason, it is "bundle_manual-test". *)
Theorem bundle_follows_git infra (st : St B) :
  let evs := new_events st (deploy B cfg infra st).2 in
  (forall out, git_rev_parse B (ext st) = Ok out ->
     Forall (fun ev => forall b, bundle_of ev = Some b -> b = "bundle_" +:+ strip out) evs)
  /\ (forall e, git_rev_parse B (ext st) = Raise e ->
        Forall (fun ev => forall b, bundle_of ev = Some b -> b = "bundle_manual-test") evs).
Proof.
  intros evs. subst evs.
  destruct (deploy B cfg infra st) as [r st'] eqn:H.
  apply deploy_frame in H as (evs & lines & Htr & _ & Hall).
  unfold new_events. cbn [snd]. rewrite Htr, drop_app_length.
  assert (Hids : forall bid, generate_bundle_id (get_git_sha B (ext st)) = bid ->
            Forall (fun ev => forall b, bundle_of ev = Some b -> b = bid)
              (Deploy infra :: evs)).
  { intros bid <-. apply Forall_cons. split; [discriminate|].
    eapply Forall_impl; [exact Hall|]. cbn. tauto. }
  split; intros ? Hgit; apply Hids; unfold get_git_sha; now rewrite Hgit.
Qed.

End Reconcile2.

Section Reconcile3.
Context (B : Backend) (cfg : Config).

(** X4.  [deploy] needs a development URL and token that are set and not
    empty: if either is unset or the empty string, every call raises
    [AttributeError] before any remote call and leaves the outside world
    alone; otherwise the first thing a call does is
    [get_projectdeployer] on the client built from them. *)
Theorem deploy_needs_dev_credentials infra (st : St B) :
  let run := deploy B cfg infra st in
  let url := DATAIKU_INSTANCE_DEV_URL cfg in
  let token := DATAIKU_API_TOKEN_DEV cfg in
  (truthy url = false \/ truthy token = false ->
     run.1 = Raise (AttributeError "get_projectdeployer")
     /\ new_events st run.2 = [Deploy infra]
     /\ ext run.2 = ext st)
  /\ (truthy url = true -> truthy token = true ->
        exists r rest,
          new_events st run.2
          = Deploy infra
            :: Remote (GetProjectDeployer
                         {| host := pystr url; api_key := pystr token;
                            no_check_certificate := true;
                            client_certificate := CLIENT_CERTIFICATE cfg |}) r
            :: rest).
Proof.
  intros run url token. subst run.
  destruct (deploy B cfg infra st) as [r st'] eqn:H.
  split.
  - intros Hfalsy.
    assert (Hnone : client_dev cfg = None).
    { unfold client_dev, get_client. fold url token.
      destruct Hfalsy as [-> | ->]; [reflexivity|].
      destruct (truthy url); reflexivity. }
    exec H; tidy. auto.
  - intros Hu Ht.
    assert (Hsome : client_dev cfg = Some
              {| host := pystr url; api_key := pystr token;
                 no_check_certificate := true;
                 client_certificate := CLIENT_CERTIFICATE cfg |}).
    { unfold client_dev, get_client. fold url token. now rewrite Hu, Ht. }
    exec H; tidy.
    all: eexists _, _; reflexivity.
Qed.

(** X6.  The calls that [deploy] makes outside any handler of their own
    are fatal: when one of them raises, it is the last call of the run and
    [deploy] raises that exception. *)
Theorem unguarded_failure_is_fatal infra (st : St B) c e :
  let run := deploy B cfg infra st in
  let evs := new_events st run.2 in
  unguarded c = true ->
  Remote c (Some e) ∈ evs ->
  run.1 = Raise e /\ last evs = Some (Remote c (Some e)).
Proof.
  intros run evs Hc. subst run evs.
  destruct (deploy B cfg infra st) as [r st'] eqn:H.
  exec H; tidy.
  all: intros Hin; split_elem.
  all: try match goal with
         | E : Remote _ _ = Remote _ _ |- _ => injection E as -> ->
         end.
  all: try discriminate Hc.
  all: split; reflexivity.
Qed.

(** X7.  What [deploy] raises never comes from a lookup: it is the
    [AttributeError] of a missing client, or the exception of the last
    call made, and that call is an unguarded one or an [export_bundle]
    whose message does not contain "already exists". *)
Theorem raise_origin infra (st : St B) e :
  let run := deploy B cfg infra st in
  let evs := new_events st run.2 in
  run.1 = Raise e ->
  (client_dev cfg = None /\ e = AttributeError "get_projectdeployer")
  \/ exists c, last evs = Some (Remote c (Some e))
       /\ (unguarded c = true
           \/ exists b, c = ExportBundle b
                        /\ contains "already exists" (str e) = false).
Proof.
  intros run evs. subst run evs.
  destruct (deploy B cfg infra st) as [r st'] eqn:H.
  exec H; tidy.
  all: intros [= <-].
  all: first [ left; split; reflexivity
             | right; eexists; split; [reflexivity|];
               first [ left; reflexivity | right; eexists; split; [reflexivity|assumption] ] ].
Qed.

End Reconcile3.

Section Reconcile4.
Context (B : Backend) (cfg : Config).

(** X8.  The order of the steps: [publish_bundle] is called only after
    [export_bundle] returned or raised an "already exists" error; the
    activation is started only on a deployment that was just bound, by a
    [save] or a [create_deployment] that returned, and after the bundle
    step, which either printed that the bundle is there or published it;
    and [wait_for_result] is called only after [start_update] returned. *)
Theorem steps_in_order infra (st : St B) :
  let st' := (deploy B cfg infra st).2 in
  let evs := new_events st st' in
  let did := deployment_id_of cfg infra in
  let bid := generate_bundle_id (get_git_sha B (ext st)) in
  (forall r, Remote (PublishBundle bid) r ∈ evs ->
     Remote (ExportBundle bid) None ∈ evs
     \/ exists e, Remote (ExportBundle bid) (Some e) ∈ evs
                  /\ contains "already exists" (str e) = true)
  /\ (forall r, Remote StartUpdate r ∈ evs ->
        (Remote (Save (Some bid)) None ∈ evs
         \/ Remote (CreateDeployment did (DATAIKU_PROJECT_KEY cfg) infra bid) None
              ∈ evs)
        /\ (Remote (PublishBundle bid) None ∈ evs
            \/ ("Bundle '" +:+ bid +:+ "' already exists in Deployer. Skipping export.")
                 ∈ new_lines st st'))
  /\ (forall r, Remote WaitForResult r ∈ evs -> Remote StartUpdate None ∈ evs).
Proof.
  intros st' evs did bid. subst st' evs.
  destruct (deploy B cfg infra st) as [r st'] eqn:H.
  exec H; tidy.
  all: split; [|split]; intros r' Hin; split_elem.
  all: try match goal with
         | |- _ /\ _ => split
         end.
  all: first [ find_elem; fail
             | left; find_elem; fail
             | right; find_elem; fail
             | right; eexists; split; [find_elem|assumption] ].
Qed.

(** X9.  No method of [dataikuapi] is called twice in one call of
    [deploy]: at most one lookup, one export, one publish, one save, one
    creation and one activation each. *)
Theorem each_method_at_most_once infra (st : St B) :
  NoDup (omap method_of (new_events st (deploy B cfg infra st).2)).
Proof.
  destruct (deploy B cfg infra st) as [r st'] eqn:H.
  exec H; tidy.
  all: cbn [omap list_omap method_of].
  all: apply (bool_decide_unpack _); vm_compute; exact I.
Qed.

(** X5.  [run_tests] never raises.  It answers [True] exactly when the
    test script could be run and returned 0: a non-zero return code and a
    failure to start the script both count as failed tests. *)
Theorem run_tests_verdict script url key pk (st : St B) :
  let run := run_tests B script url key pk st in
  let child := run_python B script url key pk (ext st) in
  exists passed,
    run.1 = Ok passed
    /\ (passed = true <-> exists result, child.1 = Ok result
                                         /\ returncode result = 0%Z)
    /\ ext run.2 = child.2
    /\ new_events st run.2 = [RunTests url passed].
Proof.
  intros run child. subst run child.
  destruct (run_tests B script url key pk st) as [r st'] eqn:H.
  exec H; tidy; cbn [fst snd ext].
  all: eexists; split; [reflexivity|].
  all: (split; [|split; reflexivity]).
  - split; [intros _; eexists; split; [reflexivity|now apply Z.eqb_eq]|reflexivity].
  - split; [discriminate|]. intros (result & [= <-] & Hz).
    apply Z.eqb_eq in Hz. congruence.
  - split; [discriminate|]. intros (result & [=] & _).
Qed.

End Reconcile4.

Lemma entered_remote evs :
  Forall (fun ev => exists c o, ev = Remote c o) evs -> omap entered evs = [].
Proof.
  induction 1 as [|ev evs (c & o & ->) _ IH]; [reflexivity|exact IH].
Qed.

Lemma stage_events_remote B x evs :
  stage_events B x evs -> Forall (fun ev => exists c o, ev = Remote c o) evs.
Proof.
  intros Hst. eapply Forall_impl; [exact Hst|]. cbn. tauto.
Qed.

Lemma tested_remote evs :
  Forall (fun ev => exists c o, ev = Remote c o) evs -> omap tested evs = [].
Proof.
  induction 1 as [|ev evs (c & o & ->) _ IH]; [reflexivity|exact IH].
Qed.

Section Promote2.
Context (B : Backend) (cfg : Config).

(** X10.  [main] reconciles staging first and production second, each at
    most once, and nothing else: the calls of [deploy] in a run are
    [deploy("staging")] alone, or [deploy("staging")] followed by
    [deploy("prod")]. *)
Theorem staging_then_production x :
  let stages := omap entered (trace (main B cfg (start x)).2) in
  stages = [DATAIKU_INFRA_ID_STAGING]
  \/ stages = [DATAIKU_INFRA_ID_STAGING; DATAIKU_INFRA_ID_PROD].
Proof.
  intros stages. subst stages.
  pose proof (main_cases B cfg x) as Hrun.
  destruct (main B cfg (start x)) as [r st']. cbn [fst snd] in *.
  inversion Hrun; subst.
  all: repeat match goal with
         | Hs : stage_events _ _ _ |- _ =>
             apply stage_events_remote, entered_remote in Hs
         end.
  all: repeat first
         [ rewrite omap_app
         | progress cbn [omap list_omap entered app]
         | match goal with Hs : omap entered _ = [] |- _ => rewrite Hs end ].
  all: auto.
Qed.

(** X11.  Production is reconciled exactly in the runs in which the
    verification of staging passed and [RUN_TESTS_ONLY] is off. *)
Theorem production_iff_verified x :
  let evs := trace (main B cfg (start x)).2 in
  Deploy DATAIKU_INFRA_ID_PROD ∈ evs
  <-> staging_verdict evs = Some true /\ RUN_TESTS_ONLY cfg = false.
Proof.
  intros evs. subst evs.
  pose proof (main_cases B cfg x) as Hrun.
  destruct (main B cfg (start x)) as [r st']. cbn [fst snd] in *.
  assert (Hno : forall y evs, stage_events B y evs ->
            Deploy DATAIKU_INFRA_ID_PROD ∉ evs).
  { intros ? ? Hst Hin. apply stage_events_remote in Hst.
    rewrite Forall_forall in Hst. destruct (Hst _ Hin) as (? & ? & [=]). }
  inversion Hrun as [evs1 H1|evs1 H1|evs1 Hflag H1|evs1 x2 evs2 Hflag H1
                     |evs1 x2 evs2 Hflag H1|evs1 x2 evs2 Hflag H1];
    subst; cbn [staging_verdict];
    rewrite ?(staging_verdict_remote _ _ (stage_events_remote _ _ _ H1));
    cbn [staging_verdict].
  all: rewrite ?elem_of_cons, ?elem_of_app, ?elem_of_cons.
  all: split; [intros Hin | intros [Hv Hf]].
  all: try (split; [reflexivity|assumption]).
  all: try congruence.
  all: try (solve [repeat first [left; reflexivity | right]]).
  all: exfalso.
  all: repeat match goal with
         | Hin : _ \/ _ |- _ => destruct Hin as [Hin|Hin]
         end.
  all: try discriminate.
  all: try (eapply Hno; eassumption).
  all: try (apply elem_of_nil in Hin; exact Hin).
  all: rewrite <- (app_nil_r evs1) in Hv;
       rewrite staging_verdict_remote in Hv
         by (eapply stage_events_remote; eassumption);
       discriminate Hv.
Qed.

(** X12.  Whatever goes wrong in [main], what leaves it is the
    [NameError] of the missing [sys]: a run either returns or raises
    "name 'sys' is not defined", never the exception that [deploy]
    raised; the exit status is 0 or 1 accordingly. *)
Theorem main_raises_only_name_error x :
  let run := main B cfg (start x) in
  (run.1 = Ok tt /\ exit_status B cfg x = 0%Z)
  \/ (run.1 = Raise (NameError "sys") /\ exit_status B cfg x = 1%Z).
Proof.
  intros run. subst run. unfold exit_status.
  pose proof (main_cases B cfg x) as Hrun.
  destruct (main B cfg (start x)) as [r st']. cbn [fst snd] in *.
  inversion Hrun; subst; auto.
Qed.

(** X15.  [main] verifies staging against the staging instance, and
    production against the production instance only once staging passed:
    the verifications of a run are none, the one of staging, or a passed
    one of staging followed by the one of production. *)
Theorem verification_targets x :
  let tests := omap tested (trace (main B cfg (start x)).2) in
  let staging := DATAIKU_INSTANCE_STAGING_URL cfg in
  let prod := DATAIKU_INSTANCE_PROD_URL cfg in
  tests = []
  \/ (exists passed, tests = [(staging, passed)])
  \/ (exists passed, tests = [(staging, true); (prod, passed)]).
Proof.
  intros tests staging prod. subst tests staging prod.
  pose proof (main_cases B cfg x) as Hrun.
  destruct (main B cfg (start x)) as [r st']. cbn [fst snd] in *.
  inversion Hrun; subst.
  all: repeat match goal with
         | Hs : stage_events _ _ _ |- _ =>
             apply stage_events_remote, tested_remote in Hs
         end.
  all: repeat first
         [ rewrite omap_app
         | progress cbn [omap list_omap tested app]
         | match goal with Hs : omap tested _ = [] |- _ => rewrite Hs end ].
  all: eauto.
Qed.

End Promote2.

Section Stages.
Import InMemory.
Context (script : string -> pyval -> pyval -> pyval -> World
                  -> res CompletedProcess * World).
Context (cfg : Config).
Let B := backend script.

(** X13.  On the in-memory deployer the bundle is exported once and
    shared by the stages: after a call of [deploy] that returned, a call
    for any infrastructure, the same or another, exports and publishes
    nothing (the comment of lines 188-189). *)
Theorem later_stage_reuses_bundle infra1 infra2 (w : World) :
  let run1 := deploy B cfg infra1 (@start B w) in
  (exists u, run1.1 = Ok u) ->
  let run2 := deploy B cfg infra2 (@start B (ext run1.2)) in
  Forall (fun ev => is_export_or_publish ev = false) (trace run2.2)
  /\ ("Bundle '" +:+ generate_bundle_id (get_git_sha B w)
      +:+ "' already exists in Deployer. Skipping export.") ∈ stdout run2.2.
Proof.
  intros run1 Hok run2. subst run1 run2.
  destruct (deploy B cfg infra1 (@start B w)) as [r st1] eqn:H1.
  cbn [fst snd] in *.
  apply first_run_converges in H1 as (((bs & Hpub & Hin) & _) & Hhead & c & Hc);
    [|exact Hok].
  cbn [start ext] in Hpub, Hin, Hhead.
  assert (Hsha : get_git_sha B (ext st1) = get_git_sha B w).
  { unfold get_git_sha, B in *. cbn. unfold mem_git_rev_parse. now rewrite Hhead. }
  apply scan_elements in Hin.
  destruct (deploy B cfg infra2 (@start B (ext st1))) as [r2 st2] eqn:H2.
  cbn [snd].
  unfold B in *.
  exec H2; cbn [trace stdout start app].
  all: cbn in *; simplify_eq; unfold mem_list_bundles in *.
  all: repeat match goal with
         | Hp : published _ !! _ = Some _,
           E : context [match published _ !! _ with _ => _ end] |- _ =>
             rewrite Hp in E
         end.
  all: simplify_eq.
  all: rewrite ?Hsha in *; try congruence.
  all: split; [repeat constructor|find_elem].
Qed.

(** X14.  On the in-memory deployer the update path rebinds and nothing
    more: when the deployment exists and [deploy] returns, its settings
    are the former ones with ['bundleId'] replaced, and no other
    deployment is touched. *)
Theorem update_keeps_other_settings infra (w : World) raw :
  let run := deploy B cfg infra (@start B w) in
  let did := deployment_id_of cfg infra in
  let bid := generate_bundle_id (get_git_sha B w) in
  deployments w !! did = Some raw ->
  (exists u, run.1 = Ok u) ->
  deployments (ext run.2) !! did = Some (<["bundleId" := bid]> raw)
  /\ forall other, other <> did ->
       deployments (ext run.2) !! other = deployments w !! other.
Proof.
  intros run did bid Hraw Hok. subst run did bid.
  destruct (deploy B cfg infra (@start B w)) as [r st1] eqn:H.
  cbn [fst snd] in *. unfold B in *.
  exec H; destruct Hok as [u [=]]; cbn [ext start] in *.
  all: cbn in *; simplify_eq.
  all: unfold mem_list_bundles, mem_export_bundle, mem_publish_bundle,
         mem_get_deployment, mem_get_settings, mem_save,
         mem_create_deployment, mem_wait_for_result in *.
  all: repeat (case_match; simplify_eq).
  all: repeat case_bool_decide; simplify_eq.
  all: cbn in *; simplify_eq.
  all: split; [apply lookup_insert_eq|].
  all: intros other Hne; now apply lookup_insert_ne.
Qed.

End Stages.

Section Examples2.
Import InMemory.

Lemma bundle_follows_git_witness :
  Forall (fun ev => forall b, bundle_of ev = Some b -> b = "bundle_abc1234")
    (new_events (@start B0 fresh) (deploy B0 config "staging" (@start B0 fresh)).2)
  /\ Forall (fun ev => forall b, bundle_of ev = Some b -> b = "bundle_manual-test")
       (new_events (@start B0 no_checkout)
          (deploy B0 config "staging" (@start B0 no_checkout)).2).
Proof.
  split.
  - exact (proj1 (bundle_follows_git B0 config "staging" (@start B0 fresh))
             ("abc1234" +:+ nl) eq_refl).
  - exact (proj2 (bundle_follows_git B0 config "staging" (@start B0 no_checkout))
             (Exn "CalledProcessError" "git rev-parse failed") eq_refl).
Defined.

Lemma deploy_needs_dev_credentials_witness :
  let cfg := load_config environ_empty_dev_url in
  (truthy (DATAIKU_INSTANCE_DEV_URL cfg) = false
   /\ (deploy B0 cfg "staging" (@start B0 fresh)).1
      = Raise (AttributeError "get_projectdeployer"))
  /\ (truthy (DATAIKU_INSTANCE_DEV_URL config) = true
      /\ truthy (DATAIKU_API_TOKEN_DEV config) = true
      /\ exists c r rest,
           new_events (@start B0 fresh)
             (deploy B0 config "staging" (@start B0 fresh)).2
           = Deploy "staging" :: Remote (GetProjectDeployer c) r :: rest).
Proof.
  intros cfg.
  assert (H0 : truthy (DATAIKU_INSTANCE_DEV_URL cfg) = false)
    by (vm_compute; reflexivity).
  assert (H1 : truthy (DATAIKU_INSTANCE_DEV_URL config) = true)
    by (vm_compute; reflexivity).
  assert (H2 : truthy (DATAIKU_API_TOKEN_DEV config) = true)
    by (vm_compute; reflexivity).
  split.
  - split; [exact H0|].
    exact (proj1 (proj1 (deploy_needs_dev_credentials B0 cfg "staging"
                           (@start B0 fresh)) (or_introl H0))).
  - split; [exact H1|split; [exact H2|]].
    destruct (proj2 (deploy_needs_dev_credentials B0 config "staging"
                       (@start B0 fresh)) H1 H2) as (r & rest & Hevs).
    eexists _, r, rest. exact Hevs.
Defined.

Lemma unguarded_failure_is_fatal_witness :
  let st := @start B0 locked_deployment in
  let run := deploy B0 config "staging" st in
  let c := CreateDeployment "deploy_MYPROJ_staging" (Some "MYPROJ") "staging"
             "bundle_abc1234" in
  let e := DataikuException "Deployment deploy_MYPROJ_staging already exists" in
  Remote c (Some e) ∈ new_events st run.2
  /\ run.1 = Raise e
  /\ last (new_events st run.2) = Some (Remote c (Some e)).
Proof.
  intros st run c e.
  assert (Hin : Remote c (Some e) ∈ new_events st run.2)
    by (apply (bool_decide_unpack _); vm_compute; exact I).
  split; [exact Hin|].
  exact (unguarded_failure_is_fatal B0 config "staging" st c e eq_refl Hin).
Defined.

Lemma raise_origin_witness :
  let st := @start B0 no_design_project in
  let run := deploy B0 config "staging" st in
  let e := DataikuException "Project MYPROJ not found" in
  run.1 = Raise e
  /\ ((client_dev config = None /\ e = AttributeError "get_projectdeployer")
      \/ exists c, last (new_events st run.2) = Some (Remote c (Some e))
           /\ (unguarded c = true
               \/ exists b, c = ExportBundle b
                            /\ contains "already exists" (str e) = false)).
Proof.
  intros st run e.
  assert (H : run.1 = Raise e) by (vm_compute; reflexivity).
  split; [exact H|].
  exact (raise_origin B0 config "staging" st e H).
Defined.

Lemma steps_in_order_witness :
  let st := @start B0 fresh in
  let st' := (deploy B0 config "staging" st).2 in
  let evs := new_events st st' in
  (Remote (PublishBundle "bundle_abc1234") None ∈ evs
   /\ Remote StartUpdate None ∈ evs
   /\ Remote WaitForResult None ∈ evs)
  /\ (Remote (ExportBundle "bundle_abc1234") None ∈ evs
      \/ exists e, Remote (ExportBundle "bundle_abc1234") (Some e) ∈ evs
                   /\ contains "already exists" (str e) = true)
  /\ Remote StartUpdate None ∈ evs.
Proof.
  intros st st' evs.
  assert (Hp : Remote (PublishBundle
                         (generate_bundle_id (get_git_sha B0 (ext st)))) None ∈ evs)
    by (apply (bool_decide_unpack _); vm_compute; exact I).
  assert (Hs : Remote StartUpdate None ∈ evs)
    by (apply (bool_decide_unpack _); vm_compute; exact I).
  assert (Hw : Remote WaitForResult None ∈ evs)
    by (apply (bool_decide_unpack _); vm_compute; exact I).
  destruct (steps_in_order B0 config "staging" st) as (H1 & H2 & H3).
  split; [split; [exact Hp|split; [exact Hs|exact Hw]]|].
  split; [exact (H1 None Hp)|exact (H3 None Hw)].
Defined.

Lemma later_stage_reuses_bundle_witness :
  let run1 := deploy B0 config "staging" (@start B0 fresh) in
  let run2 := deploy B0 config "prod" (@start B0 (ext run1.2)) in
  run1.1 = Ok tt
  /\ Forall (fun ev => is_export_or_publish ev = false) (trace run2.2).
Proof.
  intros run1 run2.
  assert (H : run1.1 = Ok tt) by (vm_compute; reflexivity).
  split; [exact H|].
  exact (proj1 (later_stage_reuses_bundle passing_script config "staging" "prod"
                  fresh (ex_intro _ tt H))).
Defined.

Lemma update_keeps_other_settings_witness :
  let run := deploy B0 config "staging" (@start B0 deployed_once) in
  let raw : gmap string string :=
    <["bundleId" := "bundle_abc1234"]>
      (<["infraId" := "staging"]> (<["projectKey" := "MYPROJ"]> ∅)) in
  deployments deployed_once !! "deploy_MYPROJ_staging" = Some raw
  /\ run.1 = Ok tt
  /\ deployments (ext run.2) !! "deploy_MYPROJ_staging"
     = Some (<["bundleId" := "bundle_abc1234"]> raw).
Proof.
  intros run raw.
  assert (H0 : deployments deployed_once !! deployment_id_of config "staging"
               = Some raw) by (vm_compute; reflexivity).
  assert (H1 : run.1 = Ok tt) by (vm_compute; reflexivity).
  split; [exact H0|split; [exact H1|]].
  exact (proj1 (update_keeps_other_settings passing_script config "staging"
                  deployed_once raw H0 (ex_intro _ tt H1))).
Defined.

Lemma exit_status_zero_witness :
  exit_status B0 config fresh = 0%Z
  /\ RUN_TESTS_ONLY config = false.
Proof.
  assert (H : exit_status B0 config fresh = 0%Z) by (vm_compute; reflexivity).
  split; [exact H|].
  exact (proj1 (exit_status_zero B0 config fresh H)).
Defined.

Lemma tests_only_exit_status_witness :
  RUN_TESTS_ONLY config_tests_only = true
  /\ exit_status (backend failing_script) config_tests_only fresh = 1%Z.
Proof.
  assert (H : RUN_TESTS_ONLY config_tests_only = true) by reflexivity.
  split; [exact H|].
  exact (tests_only_exit_status (backend failing_script) config_tests_only fresh H).
Defined.

End Examples2.

(** ** The identity of the bundle across the stages *)
Section Identity.
Context (B : Backend) (cfg : Config).

(** [main_body] is its first half followed by its second. *)
Lemma main_body_phases (st : St B) :
  main_body B cfg st
  = bind (main_until_promote B cfg) (fun _ => main_from_promote B cfg) st.
Proof.
  unfold main_body, main_until_promote, main_from_promote, bind.
  repeat match goal with
    | |- context [match ?m ?s with (_, _) => _ end] =>
        destruct (m s) as [[?|?] ?]
    | |- context [if ?b then _ else _] => destruct b
    end; reflexivity.
Qed.

(** The first half of [main] works on the bundle derived from the
    checkout the run started with. *)
Lemma staging_stage_identity x r st :
  main_until_promote B cfg (start x) = (r, st) ->
  Forall (fun ev => forall b, bundle_of ev = Some b ->
                              b = generate_bundle_id (get_git_sha B x))
    (trace st).
Proof.
  intros H.
  unfold main_until_promote, sys_exit, bind, try_except, ret, raise, print in H.
  repeat (cbn [fst snd ext trace stdout] in H; exec1 H).
  all: cbn [fst snd ext trace stdout] in H; injection H as <- <-.
  all: repeat match goal with
         | E : deploy _ _ _ _ = _ |- _ =>
             apply deploy_frame in E as (? & ? & ? & ? & ?)
         | E : run_tests _ _ _ _ _ _ = _ |- _ =>
             apply run_tests_frame in E as (? & ? & ? & ? & ? & ?)
         end.
  all: cbn [fst snd ext trace stdout start] in *.
  all: repeat match goal with
         | E : trace _ = _ |- _ => rewrite E; clear E
         end.
  all: cbn [app].
  all: repeat first
         [ apply Forall_cons; split; [discriminate|]
         | apply Forall_app; split
         | apply Forall_nil; exact I
         | eapply Forall_impl; [eassumption|]; cbn; tauto ].
Qed.

(** The second half works on the bundle derived from the checkout as it
    is when it starts, and enters [deploy] for production first. *)
Lemma production_stage_identity (st : St B) r st' :
  main_from_promote B cfg st = (r, st') ->
  exists evs2,
    trace st' = trace st ++ Deploy DATAIKU_INFRA_ID_PROD :: evs2
    /\ Forall (fun ev => forall b, bundle_of ev = Some b ->
                                   b = generate_bundle_id (get_git_sha B (ext st)))
         evs2.
Proof.
  intros H.
  unfold main_from_promote, sys_exit, bind, try_except, ret, raise, print in H.
  repeat (cbn [fst snd ext trace stdout] in H; exec1 H).
  all: cbn [fst snd ext trace stdout] in H; injection H as <- <-.
  all: repeat match goal with
         | E : deploy _ _ _ _ = _ |- _ =>
             apply deploy_frame in E as (? & ? & ? & ? & ?)
         | E : run_tests _ _ _ _ _ _ = _ |- _ =>
             apply run_tests_frame in E as (? & ? & ? & ? & ? & ?)
         end.
  all: cbn [fst snd ext trace stdout start] in *.
  all: repeat match goal with
         | E : trace _ = _ |- _ => rewrite E; clear E
         end.
  all: rewrite <- ?app_assoc; cbn [app].
  all: eexists; split; [reflexivity|].
  all: repeat first
         [ apply Forall_app; split
         | apply Forall_cons; split; [discriminate|]
         | apply Forall_nil; exact I
         | eapply Forall_impl; [eassumption|]; cbn; tauto ].
Qed.

(** C3 (as amended).  [main] hands no revision and no bundle identifier
    to [deploy]: each call derives them itself, from the checkout as it is
    when the call starts.  The calls of the staging stage carry the bundle
    derived from the checkout the run started with; those of the
    production stage carry the bundle derived from the checkout as the
    staging stage left it.  So production gets the bundle of staging
    whenever [git rev-parse] reports, when [deploy("prod")] starts, what
    it reported when the run started. *)
Theorem identity_derived_per_call x :
  let carries (w : X B) (evs : list event) :=
    Forall (fun ev => forall b, bundle_of ev = Some b ->
                                b = generate_bundle_id (get_git_sha B w)) evs in
  let staging := main_until_promote B cfg (start x) in
  let run := main B cfg (start x) in
  carries x (trace staging.2)
  /\ (forall e, staging.1 = Raise e -> trace run.2 = trace staging.2)
  /\ (forall u, staging.1 = Ok u ->
        exists evs2,
          trace run.2 = trace staging.2 ++ Deploy DATAIKU_INFRA_ID_PROD :: evs2
          /\ carries (ext staging.2) evs2
          /\ (get_git_sha B (ext staging.2) = get_git_sha B x ->
              carries x (trace run.2))).
Proof.
  intros carries staging run. subst carries staging run.
  unfold main, try_except. rewrite main_body_phases. unfold bind.
  destruct (main_until_promote B cfg (start x)) as [r st] eqn:Hpre.
  pose proof (staging_stage_identity x r st Hpre) as Hst.
  cbn [fst snd].
  split; [exact Hst|]. split.
  - intros e ->. reflexivity.
  - intros u ->.
    destruct (main_from_promote B cfg st) as [r2 st2] eqn:Hpost.
    apply production_stage_identity in Hpost as (evs2 & Htr & Hids).
    exists evs2.
    destruct r2 as [a|e]; unfold print, sys_exit, raise;
      cbn [fst snd trace]; rewrite Htr.
    all: split; [reflexivity|]; split; [exact Hids|].
    all: intros Hsame; apply Forall_app; split; [exact Hst|].
    all: apply Forall_cons; split; [discriminate|].
    all: rewrite <- Hsame; exact Hids.
Qed.

End Identity.

Section Examples3.
Import InMemory.

Lemma identity_derived_per_call_witness :
  let B1 := backend failing_script in
  let staging := main_until_promote B0 config (@start B0 fresh) in
  let run := main B0 config (@start B0 fresh) in
  (staging.1 = Ok tt
   /\ get_git_sha B0 (ext staging.2) = get_git_sha B0 fresh
   /\ Forall (fun ev => forall b, bundle_of ev = Some b ->
                                  b = generate_bundle_id (get_git_sha B0 fresh))
        (trace run.2))
  /\ ((main_until_promote B1 config (@start B1 fresh)).1 = Raise (NameError "sys")
      /\ trace (main B1 config (@start B1 fresh)).2
         = trace (main_until_promote B1 config (@start B1 fresh)).2).
Proof.
  intros B1 staging run.
  assert (H1 : staging.1 = Ok tt) by (vm_compute; reflexivity).
  assert (H2 : get_git_sha B0 (ext staging.2) = get_git_sha B0 fresh)
    by (vm_compute; reflexivity).
  assert (H3 : (main_until_promote B1 config (@start B1 fresh)).1
               = Raise (NameError "sys")) by (vm_compute; reflexivity).
  split.
  - split; [exact H1|split; [exact H2|]].
    destruct (identity_derived_per_call B0 config fresh) as (_ & _ & Hok).
    destruct (Hok tt H1) as (evs2 & _ & _ & Hsame).
    exact (Hsame H2).
  - split; [exact H3|].
    destruct (identity_derived_per_call B1 config fresh) as (_ & Hfail & _).
    exact (Hfail _ H3).
Defined.

End Examples3.
